(** * Advisory hooks of the dev-accelerator plugin

    A shallow embedding of the two lifecycle hooks of the repository,

    - [src/hooks/on-prompt-submit.js] (the prompt-intent classifier), and
    - [src/plugin/dev-accelerator/hooks/on-file-change.js] (the file-change
      advisor),

    together with the parts of the JavaScript runtime they rest on: strings
    as sequences of UTF-16 code units, the regular expressions the hooks use,
    Node's POSIX [path] module, the file system and child processes as a
    read-only world, and exceptions. *)

From Stdlib Require Import String Ascii NArith ZArith List Bool Lia DecimalNat.
From stdpp Require Import gmap.
Import ListNotations.

(** ** JavaScript strings *)

(** A JavaScript string is a finite sequence of 16-bit code units. *)
Abbreviation jsstring := (list N).

Module JsString.

(** Literals are written as Rocq strings, whose bytes are the UTF-8
    encoding of the source text, and decoded to code units here.  [pending]
    is the code point being assembled and [need] the number of continuation
    bytes still to come. *)
Definition units_of_code_point (cp : N) : jsstring :=
  if (cp <? 65536)%N then [cp]
  else
    let v := (cp - 65536)%N in
    [(55296 + N.shiftr v 10)%N; (56320 + N.land v 1023)%N].

Fixpoint decode_utf8 (pending : N) (need : nat) (bytes : list N) : jsstring :=
  match bytes with
  | [] => []
  | b :: rest =>
      match need with
      | O =>
          if (b <? 128)%N then b :: decode_utf8 0%N O rest
          else if (b <? 224)%N then decode_utf8 (N.land b 31) 1 rest
          else if (b <? 240)%N then decode_utf8 (N.land b 15) 2 rest
          else decode_utf8 (N.land b 7) 3 rest
      | S n =>
          let cp := (N.shiftl pending 6 + N.land b 63)%N in
          match n with
          | O => units_of_code_point cp ++ decode_utf8 0%N O rest
          | S _ => decode_utf8 cp n rest
          end
      end
  end.

Definition js (s : string) : jsstring :=
  decode_utf8 0%N O (map N_of_ascii (list_ascii_of_string s)).
#[global] Arguments js _%_string : simpl never.

(** Equality of strings, [===]. *)
Fixpoint jsstring_eqb (a b : jsstring) : bool :=
  match a, b with
  | [], [] => true
  | c :: a', d :: b' => (c =? d)%N && jsstring_eqb a' b'
  | _, _ => false
  end.

(** [String.prototype.startsWith]. *)
Fixpoint startsWith (s p : jsstring) {struct p} : bool :=
  match p with
  | [] => true
  | c :: p' =>
      match s with
      | [] => false
      | d :: s' => (c =? d)%N && startsWith s' p'
      end
  end.

(** [String.prototype.includes]. *)
Fixpoint includes (s p : jsstring) : bool :=
  startsWith s p ||
  match s with
  | [] => false
  | _ :: s' => includes s' p
  end.

(** [String.prototype.indexOf]: the first index at which [p] occurs, or
    [-1]. *)
Fixpoint indexOf (s p : jsstring) : Z :=
  if startsWith s p then 0%Z
  else
    match s with
    | [] => (-1)%Z
    | _ :: s' =>
        let i := indexOf s' p in
        if (i <? 0)%Z then (-1)%Z else (i + 1)%Z
    end.

(** [String.prototype.slice] with one argument: a negative start counts
    from the end of the string. *)
Definition slice (s : jsstring) (start : Z) : jsstring :=
  let len := Z.of_nat (length s) in
  let from := if (start <? 0)%Z then Z.max (len + start) 0 else Z.min start len in
  skipn (Z.to_nat from) s.

(** [String.prototype.split] on a one-unit separator.  The result always
    has at least one element. *)
Fixpoint split (sep : N) (s : jsstring) : list jsstring :=
  match s with
  | [] => [[]]
  | c :: s' =>
      if (c =? sep)%N then [] :: split sep s'
      else
        match split sep s' with
        | [] => [[c]]
        | l :: ls => (c :: l) :: ls
        end
  end.

(** [Array.prototype.join]. *)
Fixpoint join (sep : jsstring) (parts : list jsstring) : jsstring :=
  match parts with
  | [] => []
  | [l] => l
  | l :: ls => l ++ sep ++ join sep ls
  end.

(** [String.prototype.toLowerCase] on the ASCII letters.  The code points
    outside ASCII whose lower-case form holds an ASCII letter yield only
    [i] and [k], which occur in none of the patterns compared against. *)
Definition lower_unit (c : N) : N :=
  if ((65 <=? c) && (c <=? 90))%N then (c + 32)%N else c.

Definition toLowerCase (s : jsstring) : jsstring := map lower_unit s.

(** The decimal rendering of a length or count inside a template
    literal. *)
Fixpoint units_of_uint (d : Decimal.uint) : jsstring :=
  match d with
  | Decimal.Nil => []
  | Decimal.D0 d' => 48%N :: units_of_uint d'
  | Decimal.D1 d' => 49%N :: units_of_uint d'
  | Decimal.D2 d' => 50%N :: units_of_uint d'
  | Decimal.D3 d' => 51%N :: units_of_uint d'
  | Decimal.D4 d' => 52%N :: units_of_uint d'
  | Decimal.D5 d' => 53%N :: units_of_uint d'
  | Decimal.D6 d' => 54%N :: units_of_uint d'
  | Decimal.D7 d' => 55%N :: units_of_uint d'
  | Decimal.D8 d' => 56%N :: units_of_uint d'
  | Decimal.D9 d' => 57%N :: units_of_uint d'
  end.

Definition ofNat (n : nat) : jsstring := units_of_uint (Nat.to_uint n).

(** The number of occurrences of a code unit. *)
Fixpoint count_unit (c : N) (s : jsstring) : nat :=
  match s with
  | [] => 0
  | d :: s' => (if (c =? d)%N then 1 else 0) + count_unit c s'
  end.

Definition is_digit (c : N) : bool := ((48 <=? c) && (c <=? 57))%N.

Definition newline : N := 10%N.
Definition slash : N := 47%N.
Definition dot : N := 46%N.
Definition dquote : N := 34%N.

End JsString.
Import JsString.

(** ** Regular expressions *)

(** The fragment of ECMAScript regular expressions the hooks use:
    characters and character classes, sequence, alternation and the greedy
    star, matched by backtracking in the order the language prescribes. *)
Module RegExp.

Inductive regex : Type :=
| Eps
| Chr (p : N -> bool)
| Seq (r1 r2 : regex)
| Alt (r1 r2 : regex)
| Star (r : regex).

(** [rmatch r s k] matches [r] at the head of [s] and hands the rest of
    the input to the continuation [k]; a failing continuation makes the
    matcher backtrack.  An iteration of a star that consumes nothing is
    rejected, as in the language, so the input length bounds the number of
    iterations. *)
Fixpoint rmatch {A : Type} (r : regex) (s : jsstring)
    (k : jsstring -> option A) {struct r} : option A :=
  match r with
  | Eps => k s
  | Chr p =>
      match s with
      | c :: s' => if p c then k s' else None
      | [] => None
      end
  | Seq r1 r2 => rmatch r1 s (fun s' => rmatch r2 s' k)
  | Alt r1 r2 =>
      match rmatch r1 s k with
      | Some x => Some x
      | None => rmatch r2 s k
      end
  | Star r1 =>
      (fix iter (fuel : nat) (s : jsstring) {struct fuel} : option A :=
         match fuel with
         | O => k s
         | S fuel' =>
             match
               rmatch r1 s
                 (fun s' => if length s' <? length s then iter fuel' s' else None)
             with
             | Some x => Some x
             | None => k s
             end
         end) (length s) s
  end.

(** The rest of the input after the match that starts at the head of
    [s], if there is one. *)
Definition exec_here (r : regex) (s : jsstring) : option jsstring :=
  rmatch r s Some.

(** [RegExp.prototype.test] for a pattern without the [g] flag: is there
    a match starting anywhere in [s]? *)
Fixpoint test (r : regex) (s : jsstring) : bool :=
  match exec_here r s with
  | Some _ => true
  | None =>
      match s with
      | [] => false
      | _ :: s' => test r s'
      end
  end.

(** The successive matches of a [g] pattern, leftmost first, each search
    resuming where the previous match ended (one unit further after an
    empty match). *)
Fixpoint matches_from (fuel : nat) (r : regex) (s : jsstring) : list jsstring :=
  match fuel with
  | O => []
  | S fuel' =>
      match exec_here r s with
      | Some rest =>
          firstn (length s - length rest) s ::
            (if length rest <? length s then matches_from fuel' r rest
             else
               match s with
               | [] => []
               | _ :: s' => matches_from fuel' r s'
               end)
      | None =>
          match s with
          | [] => []
          | _ :: s' => matches_from fuel' r s'
          end
      end
  end.

(** [String.prototype.match] with a [g] pattern: the array of matches, or
    [null] when there is none. *)
Definition match_g (s : jsstring) (r : regex) : option (list jsstring) :=
  match matches_from (S (length s)) r s with
  | [] => None
  | ms => Some ms
  end.

(** The idiom [(s.match(r) || [])]. *)
Definition or_empty (o : option (list jsstring)) : list jsstring :=
  match o with
  | Some ms => ms
  | None => []
  end.

(** *** Pattern syntax *)

Definition char (c : N) : regex := Chr (N.eqb c).

(** A character under the [i] flag: both sides are canonicalized, which
    for an ASCII letter of the pattern accepts exactly its two cases. *)
Definition canonicalize (c : N) : N :=
  if ((97 <=? c) && (c <=? 122))%N then (c - 32)%N else c.

Definition char_i (c : N) : regex :=
  Chr (fun d => (canonicalize d =? canonicalize c)%N).

Fixpoint seq_of (f : N -> regex) (s : jsstring) : regex :=
  match s with
  | [] => Eps
  | [c] => f c
  | c :: s' => Seq (f c) (seq_of f s')
  end.

Definition lit (s : jsstring) : regex := seq_of char s.
Definition lit_i (s : jsstring) : regex := seq_of char_i s.
Definition plus (r : regex) : regex := Seq r (Star r).

(** [\s]: white space and line terminators. *)
Definition is_space (c : N) : bool :=
  ((9 <=? c) && (c <=? 13) || (c =? 32) || (c =? 160) || (c =? 5760)
   || (8192 <=? c) && (c <=? 8202) || (c =? 8232) || (c =? 8233)
   || (c =? 8239) || (c =? 8287) || (c =? 12288) || (c =? 65279))%N.

(** [\w]. *)
Definition is_word (c : N) : bool :=
  ((48 <=? c) && (c <=? 57) || (65 <=? c) && (c <=? 90)
   || (97 <=? c) && (c <=? 122) || (c =? 95))%N.

(** [.] without the [s] flag: anything but a line terminator. *)
Definition is_not_line_terminator (c : N) : bool :=
  negb ((c =? 10) || (c =? 13) || (c =? 8232) || (c =? 8233))%N.

Definition space : regex := Chr is_space.
Definition word : regex := Chr is_word.
Definition any : regex := Chr is_not_line_terminator.
Definition not_char (c : N) : regex := Chr (fun d => negb (d =? c)%N).

End RegExp.
Import RegExp.

(** ** Node's [path] module (POSIX flavour) *)

Module Path.

Definition is_slash (c : N) : bool := (c =? slash)%N.
Definition not_slash (c : N) : bool := negb (c =? slash)%N.
Definition not_dot (c : N) : bool := negb (c =? dot)%N.

Fixpoint take_while (p : N -> bool) (s : jsstring) : jsstring :=
  match s with
  | [] => []
  | c :: s' => if p c then c :: take_while p s' else []
  end.

Fixpoint drop_while (p : N -> bool) (s : jsstring) : jsstring :=
  match s with
  | [] => []
  | c :: s' => if p c then drop_while p s' else s
  end.

(** The last component of a path, trailing slashes ignored; the scan runs
    from the end of the path, as Node's does. *)
Definition last_component (p : jsstring) : jsstring :=
  rev (take_while not_slash (drop_while is_slash (rev p))).

(** [path.basename(p)]. *)
Definition basename (p : jsstring) : jsstring := last_component p.

(** [path.basename(p, suffix)].  With an empty suffix, or one longer than
    the path, this is [path.basename(p)]; a suffix equal to the path gives
    the empty string.  Otherwise Node scans the path from its end, skipping
    the trailing slashes and comparing the last component with the suffix
    unit by unit, and cuts the path from the start of that component:
    - up to the suffix, when the component ends with the suffix and is
      longer than it;
    - up to the end of the path, trailing slashes included, when the
      comparison reaches the start of the component with units of the
      suffix left to match (the component is a proper end of the suffix),
      and when the path holds nothing but slashes;
    - up to the end of the component in every other case. *)
Definition basename_ext (p suffix : jsstring) : jsstring :=
  match suffix with
  | [] => basename p
  | _ :: _ =>
      if length p <? length suffix then basename p
      else if jsstring_eqb suffix p then []
      else
        let b := basename p in
        match b with
        | [] => p
        | _ :: _ =>
            if startsWith (rev b) (rev suffix) then
              if length suffix <? length b
              then firstn (length b - length suffix) b
              else b
            else if startsWith (rev suffix) (rev b) then
              b ++ take_while is_slash (rev p)
            else b
        end
  end.

(** [path.extname(p)]: from the last dot of the last component to its
    end; empty when there is no dot, when the only dot leads the
    component, or when the component is [..]. *)
Definition extname (p : jsstring) : jsstring :=
  let rb := rev (last_component p) in
  let after := take_while not_dot rb in
  match drop_while not_dot rb with
  | [] => []
  | _ :: before =>
      match before with
      | [] => []
      | _ :: _ =>
          if jsstring_eqb rb [dot; dot] then []
          else dot :: rev after
      end
  end.

(** [path.dirname(p)]. *)
Definition dirname (p : jsstring) : jsstring :=
  match p with
  | [] => [dot]
  | c0 :: t =>
      let hasRoot := is_slash c0 in
      let r := drop_while not_slash (drop_while is_slash (rev t)) in
      match r with
      | [] => if hasRoot then [slash] else [dot]
      | _ :: _ =>
          if hasRoot && (length r =? 1) then [slash; slash]
          else firstn (length r) p
      end
  end.

(** The segment walk of [normalizeString]: empty and [.] segments are
    dropped, [..] removes the segment before it, and is kept only where
    the path may climb above its start.  [acc] is the result so far, last
    segment first. *)
Fixpoint normalize_segments (allowAboveRoot : bool) (segs acc : list jsstring)
    : list jsstring :=
  match segs with
  | [] => rev acc
  | seg :: segs' =>
      if jsstring_eqb seg [] || jsstring_eqb seg [dot] then
        normalize_segments allowAboveRoot segs' acc
      else if jsstring_eqb seg [dot; dot] then
        match acc with
        | top :: acc' =>
            if jsstring_eqb top [dot; dot] then
              normalize_segments allowAboveRoot segs'
                (if allowAboveRoot then seg :: acc else acc)
            else normalize_segments allowAboveRoot segs' acc'
        | [] =>
            normalize_segments allowAboveRoot segs'
              (if allowAboveRoot then [seg] else [])
        end
      else normalize_segments allowAboveRoot segs' (seg :: acc)
  end.

(** [path.normalize(p)]. *)
Definition normalize (p : jsstring) : jsstring :=
  match p with
  | [] => [dot]
  | c0 :: _ =>
      let isAbsolute := is_slash c0 in
      let trailingSeparator :=
        match rev p with
        | c :: _ => is_slash c
        | [] => false
        end in
      let body :=
        join [slash] (normalize_segments (negb isAbsolute) (split slash p) []) in
      match body with
      | [] =>
          if isAbsolute then [slash]
          else if trailingSeparator then [dot; slash] else [dot]
      | _ :: _ =>
          let body' := if trailingSeparator then body ++ [slash] else body in
          if isAbsolute then slash :: body' else body'
      end
  end.

(** [path.join(...parts)]. *)
Definition join (parts : list jsstring) : jsstring :=
  match List.filter (fun a => negb (jsstring_eqb a [])) parts with
  | [] => [dot]
  | ps => normalize (JsString.join [slash] ps)
  end.

End Path.

(** ** The runtime the hooks run in *)

Module Runtime.

(** A thrown [Error]: its message and, for a failed child process, the
    output captured from it ([error.stdout]; absent on other errors). *)
Record js_error := { message : jsstring; stdout : option jsstring }.

(** What a path names on disk: nothing, a file that can be read, or
    something that exists but whose read raises (a directory, a file
    without read permission). *)
Inductive node :=
| Absent
| File (content : jsstring)
| Unreadable (err : js_error).

(** The world outside the hook, which it only reads: the file system
    (looked up by the path strings the hook passes to it), the outcome of
    running a shell command, and the clock. *)
Record world := {
  fs : jsstring -> node;
  run_command : jsstring -> js_error + jsstring;
  clock : jsstring
}.

(** A record written with [console.error]. *)
Inductive diagnostic :=
| ErrorProcessing (filePath message : jsstring)
| ChangeLog (timestamp operation : jsstring)
    (filesChanged notifications warnings errors : nat)
| PromptLog (timestamp intent : jsstring) (promptLength filesContext : nat).

(** The mutable state a call works on: the three arrays the file-change
    hook fills, and the diagnostic stream. *)
Record heap := {
  notifications : list jsstring;
  warnings : list jsstring;
  errors : list jsstring;
  stderr : list diagnostic
}.

Definition fresh : heap :=
  {| notifications := []; warnings := []; errors := []; stderr := [] |}.

Inductive completion (A : Type) :=
| Normal (a : A)
| Throw (e : js_error).
#[global] Arguments Normal {A} a.
#[global] Arguments Throw {A} e.

(** Computations: state passing, with exceptions that keep the state
    reached when they were raised. *)
Definition M (A : Type) : Type := heap -> completion A * heap.

#[global] Instance M_ret : MRet M := fun A a h => (Normal a, h).

#[global] Instance M_bind : MBind M := fun A B f c h =>
  match c h with
  | (Normal a, h') => f a h'
  | (Throw e, h') => (Throw e, h')
  end.

Definition throw {A : Type} (e : js_error) : M A := fun h => (Throw e, h).

(** [try { body } catch (error) { handler }]. *)
Definition try_catch {A : Type} (body : M A) (handler : js_error -> M A) : M A :=
  fun h =>
    match body h with
    | (Normal a, h') => (Normal a, h')
    | (Throw e, h') => handler e h'
    end.

Definition when (b : bool) (c : M unit) : M unit :=
  if b then c else mret tt.

Definition push_notification (m : jsstring) : M unit := fun h =>
  (Normal tt,
   {| notifications := notifications h ++ [m]; warnings := warnings h;
      errors := errors h; stderr := stderr h |}).

Definition push_warning (m : jsstring) : M unit := fun h =>
  (Normal tt,
   {| notifications := notifications h; warnings := warnings h ++ [m];
      errors := errors h; stderr := stderr h |}).

Definition console_error (d : diagnostic) : M unit := fun h =>
  (Normal tt,
   {| notifications := notifications h; warnings := warnings h;
      errors := errors h; stderr := stderr h ++ [d] |}).

Definition get : M heap := fun h => (Normal h, h).

(** The local declarations [const notifications = []] and so on. *)
Definition new_arrays : M unit := fun h =>
  (Normal tt,
   {| notifications := []; warnings := []; errors := []; stderr := stderr h |}).

Section World.
Variable w : world.

(** [fs.existsSync]. *)
Definition existsSync (p : jsstring) : bool :=
  match fs w p with
  | Absent => false
  | _ => true
  end.

(** [fs.readFileSync(p, 'utf-8')]. *)
Definition readFileSync (p : jsstring) : M jsstring :=
  match fs w p with
  | File content => mret content
  | Unreadable e => throw e
  | Absent =>
      throw {| message :=
                 js "ENOENT: no such file or directory, open '" ++ p ++ js "'";
               stdout := None |}
  end.

(** [execSync(command, { encoding: 'utf-8', stdio: 'pipe' })]: the
    captured output, or the error of a command that could not be run or
    exited with a failure. *)
Definition execSync (command : jsstring) : M jsstring :=
  match run_command w command with
  | inr out => mret out
  | inl e => throw e
  end.

(** [new Date().toISOString()]. *)
Definition toISOString_now : jsstring := clock w.
End World.

(** The heap [h] with the entries of [d] appended to it. *)
Definition extend (h d : heap) : heap :=
  {| notifications := notifications h ++ notifications d;
     warnings := warnings h ++ warnings d;
     errors := errors h ++ errors d;
     stderr := stderr h ++ stderr d |}.

(** A computation that only appends: what it returns and what it adds do
    not depend on the heap it starts from, and it adds nothing to [errors]. *)
Definition appends_only {A : Type} (c : M A) : Prop :=
  (forall h, c h = (fst (c fresh), extend h (snd (c fresh))))
  /\ errors (snd (c fresh)) = [].

(** What a computation writes when it runs on an empty heap. *)
Definition added {A : Type} (c : M A) : heap := snd (c fresh).

(** A disk given by the list of its entries; any other path names
    nothing. *)
Fixpoint disk (entries : list (jsstring * node)) (p : jsstring) : node :=
  match entries with
  | [] => Absent
  | (q, n) :: rest => if jsstring_eqb p q then n else disk rest p
  end.

(** One call of a hook: it starts with nothing written, and yields its
    completion together with the diagnostics it wrote. *)
Definition call {A : Type} (c : M A) : completion A * list diagnostic :=
  let '(r, h) := c fresh in (r, stderr h).

End Runtime.
Import Runtime.

(** ** [hooks/on-file-change.js] *)

Module OnFileChange.

Inductive change_type := created | modified | deleted.

Record FileChange := { filePath : jsstring; changeType : change_type }.

Record ChangeEvent := { files : list FileChange; operation : jsstring }.

(** The object the hook returns; [None] is [undefined]. *)
Record AdvisoryResult := {
  res_notifications : option (list jsstring);
  res_warnings : option (list jsstring);
  res_errors : option (list jsstring)
}.

(** A list of the result read as its entries: [undefined] holds none. *)
Definition listing (o : option (list jsstring)) : list jsstring :=
  match o with
  | Some l => l
  | None => []
  end.

(** How many times a message occurs in a list. *)
Definition occurrences (m : jsstring) (l : list jsstring) : nat :=
  length (List.filter (jsstring_eqb m) l).

(** [Array.prototype.includes] on an array of strings. *)
Definition array_includes (a : list jsstring) (x : jsstring) : bool :=
  existsb (jsstring_eqb x) a.

(** *** The patterns *)

(** [/console\.log\(/g] *)
Definition re_console_log : regex := lit (js "console.log(").

(** [/\/\/\s*(TODO|FIXME)/g] *)
Definition re_todo : regex :=
  Seq (lit (js "//")) (Seq (Star space) (Alt (lit (js "TODO")) (lit (js "FIXME")))).

(** [/error/g] *)
Definition re_error : regex := lit (js "error").

(** [/function\s+\w+\s*\([^)]*\)\s*\{/g] *)
Definition re_function : regex :=
  Seq (lit (js "function"))
    (Seq (plus space)
       (Seq (plus word)
          (Seq (Star space)
             (Seq (lit (js "("))
                (Seq (Star (not_char 41))
                   (Seq (lit (js ")")) (Seq (Star space) (lit (js "{"))))))))).

(** [/\{/g] and [/\}/g] *)
Definition re_open_brace : regex := lit (js "{").
Definition re_close_brace : regex := lit (js "}").

(** [/print\(/g] *)
Definition re_print : regex := lit (js "print(").

(** The number of matches, [(s.match(r) || []).length]. *)
Definition count_matches (s : jsstring) (r : regex) : nat :=
  length (or_empty (match_g s r)).

(** *** The messages *)

Definition msg_console_log (consoleLogs : nat) (base : jsstring) : jsstring :=
  js "⚠️  Found " ++ ofNat consoleLogs ++ js " console.log statement(s) in " ++ base.

Definition msg_todo (todos : nat) (base : jsstring) : jsstring :=
  js "📝 Found " ++ ofNat todos ++ js " TODO/FIXME comment(s) in " ++ base.

Definition msg_eslint_passed (base : jsstring) : jsstring :=
  js "✅ ESLint: " ++ base ++ js " passed".

Definition msg_eslint_issues (issueCount : nat) (base : jsstring) : jsstring :=
  js "⚠️  ESLint found " ++ ofNat issueCount ++ js " issue(s) in " ++ base.

Definition msg_long_function (base : jsstring) : jsstring :=
  js "Potentially long function detected in " ++ base.

Definition msg_print (prints : nat) (base : jsstring) : jsstring :=
  js "Found " ++ ofNat prints ++ js " print statement(s) in " ++ base.

Definition msg_pylint_passed (base : jsstring) : jsstring :=
  js "✅ Pylint: " ++ base ++ js " passed".

Definition msg_pylint_issues (base : jsstring) : jsstring :=
  js "Pylint found issues in " ++ base.

Definition msg_test_file (base : jsstring) : jsstring :=
  js "✅ Test file " ++ base ++ js " modified".

Definition msg_no_test_file (base testBase : jsstring) : jsstring :=
  js "⚠️  No test file found for " ++ base ++ js ". Consider creating " ++ testBase.

Definition msg_size (base : jsstring) (lines : nat) : jsstring :=
  js "⚠️  " ++ base ++ js " is " ++ ofNat lines
    ++ js " lines. Consider breaking into smaller modules.".

(** *** The helpers at the end of the file *)

(** [isTestFile] *)
Definition isTestFile (filePath : jsstring) : bool :=
  let fileName := toLowerCase (Path.basename filePath) in
  includes fileName (js ".test.") ||
  includes fileName (js ".spec.") ||
  includes fileName (js "_test.") ||
  startsWith fileName (js "test_") ||
  includes filePath (js "/tests/") ||
  includes filePath (js "/test/") ||
  includes filePath (js "/__tests__/").

Definition sourceExts : list jsstring :=
  [js ".js"; js ".jsx"; js ".ts"; js ".tsx"; js ".py"; js ".java"; js ".go";
   js ".rs"; js ".rb"; js ".php"].

(** [isSourceFile] *)
Definition isSourceFile (filePath : jsstring) : bool :=
  let ext := Path.extname filePath in
  array_includes sourceExts ext && negb (isTestFile filePath).

(** The array [patterns] of [getTestFilePath]. *)
Definition testFilePatterns (filePath : jsstring) : list jsstring :=
  let ext := Path.extname filePath in
  let baseName := Path.basename_ext filePath ext in
  let dirName := Path.dirname filePath in
  [ Path.join [dirName; baseName ++ js ".test" ++ ext];
    Path.join [dirName; baseName ++ js ".spec" ++ ext];
    Path.join [dirName; js "__tests__"; baseName ++ js ".test" ++ ext];
    Path.join [dirName; js ".."; js "tests"; baseName ++ js ".test" ++ ext] ].

(** [getTestFilePath]: the first pattern. *)
Definition getTestFilePath (filePath : jsstring) : jsstring :=
  hd [] (testFilePatterns filePath).

(** The notifications and the warnings the two language checks write for
    a file with the given base name. *)
Inductive check_notification (base : jsstring) : jsstring -> Prop :=
| note_todo (todos : nat) : check_notification base (msg_todo todos base)
| note_eslint_passed : check_notification base (msg_eslint_passed base)
| note_pylint_passed : check_notification base (msg_pylint_passed base).

Inductive check_warning (base : jsstring) : jsstring -> Prop :=
| warn_console_log (consoleLogs : nat) :
    check_warning base (msg_console_log consoleLogs base)
| warn_eslint_issues (issueCount : nat) :
    check_warning base (msg_eslint_issues issueCount base)
| warn_print (prints : nat) : check_warning base (msg_print prints base)
| warn_pylint_issues : check_warning base (msg_pylint_issues base).

(** The classification of test files in the words of the specification:
    the base name contains [.test.], [.spec.] or [_test.], or starts with
    [test_], or one of the segments of the path is [tests], [test] or
    [__tests__]. *)
Definition spec_isTestFile (filePath : jsstring) : bool :=
  let fileName := Path.basename filePath in
  includes fileName (js ".test.") ||
  includes fileName (js ".spec.") ||
  includes fileName (js "_test.") ||
  startsWith fileName (js "test_") ||
  existsb (fun segment => array_includes [js "tests"; js "test"; js "__tests__"] segment)
    (split slash filePath).

Section Hook.
Variable w : world.

(** The loop over [functions] in [checkJavaScript]; warning ends it
    ([break]). *)
Fixpoint longFunctionLoop (content filePath : jsstring)
    (functions : list jsstring) : M unit :=
  match functions with
  | [] => mret tt
  | func :: rest =>
      let funcStart := indexOf content func in
      let funcBody := slice content funcStart in
      let lines := JsString.join [newline] (firstn 100 (split newline funcBody)) in
      let braceCount :=
        (Z.of_nat (count_matches lines re_open_brace)
         - Z.of_nat (count_matches lines re_close_brace))%Z in
      if (100 <? length (split newline lines)) && (braceCount =? 0)%Z
      then push_warning (msg_long_function (Path.basename filePath))
      else longFunctionLoop content filePath rest
  end.

(** [checkJavaScript].  The [errors] array it is handed is part of the
    heap; nothing here writes to it. *)
Definition checkJavaScript (filePath : jsstring) : M unit :=
  if negb (existsSync w filePath) then mret tt
  else
    content ← readFileSync w filePath;
    let consoleLogs := count_matches content re_console_log in
    when (0 <? consoleLogs)
      (push_warning (msg_console_log consoleLogs (Path.basename filePath)));;
    let todos := count_matches content re_todo in
    when (0 <? todos)
      (push_notification (msg_todo todos (Path.basename filePath)));;
    try_catch
      (execSync w (js "npx eslint --quiet " ++ [dquote] ++ filePath ++ [dquote]);;
       push_notification (msg_eslint_passed (Path.basename filePath)))
      (fun error =>
         match stdout error with
         | Some out =>
             if 0 <? length out then
               let issueCount := count_matches out re_error in
               when (0 <? issueCount)
                 (push_warning
                    (msg_eslint_issues issueCount (Path.basename filePath)))
             else mret tt
         | None => mret tt
         end);;
    let functions := or_empty (match_g content re_function) in
    longFunctionLoop content filePath functions.

(** [checkPython] *)
Definition checkPython (filePath : jsstring) : M unit :=
  if negb (existsSync w filePath) then mret tt
  else
    content ← readFileSync w filePath;
    let prints := count_matches content re_print in
    when (0 <? prints)
      (push_warning (msg_print prints (Path.basename filePath)));;
    try_catch
      (execSync w (js "pylint --errors-only " ++ [dquote] ++ filePath ++ [dquote]);;
       push_notification (msg_pylint_passed (Path.basename filePath)))
      (fun error =>
         match stdout error with
         | Some out =>
             when (0 <? length out)
               (push_warning (msg_pylint_issues (Path.basename filePath)))
         | None => mret tt
         end).

(** The body of the [try] block: the checks run on one changed file. *)
Definition fileChecks (file : FileChange) (ext : jsstring) : M unit :=
  let filePath := filePath file in
  when (array_includes [js ".js"; js ".jsx"; js ".ts"; js ".tsx"] ext)
    (checkJavaScript filePath);;
  when (array_includes [js ".py"] ext) (checkPython filePath);;
  when (isTestFile filePath)
    (push_notification (msg_test_file (Path.basename filePath)));;
  when (negb (isTestFile filePath) && isSourceFile filePath)
    (let testFilePath := getTestFilePath filePath in
     when (negb (existsSync w testFilePath))
       (push_warning
          (msg_no_test_file (Path.basename filePath)
             (Path.basename testFilePath))));;
  when (existsSync w filePath)
    (content ← readFileSync w filePath;
     let lines := length (split newline content) in
     when (600 <? lines)
       (push_warning (msg_size (Path.basename filePath) lines))).

(** One turn of the loop [for (const file of files)]. *)
Definition processFile (file : FileChange) : M unit :=
  let ext := Path.extname (filePath file) in
  try_catch (fileChecks file ext)
    (fun error =>
       console_error (ErrorProcessing (filePath file) (message error))).

Fixpoint forEachFile (fs : list FileChange) : M unit :=
  match fs with
  | [] => mret tt
  | file :: rest => processFile file;; forEachFile rest
  end.

(** [list.length > 0 ? list : undefined] *)
Definition nonempty_or_undefined (l : list jsstring) : option (list jsstring) :=
  match l with
  | [] => None
  | _ :: _ => Some l
  end.

(** The exported hook, [module.exports = async (context) => ...]. *)
Definition advise (context : ChangeEvent) : M AdvisoryResult :=
  new_arrays;;
  forEachFile (files context);;
  h ← get;
  console_error
    (ChangeLog (toISOString_now w) (operation context)
       (length (files context))
       (length (notifications h)) (length (warnings h)) (length (errors h)));;
  mret {| res_notifications := nonempty_or_undefined (notifications h);
          res_warnings := nonempty_or_undefined (warnings h);
          res_errors := nonempty_or_undefined (errors h) |}.

End Hook.

(** *** Vocabulary of the statements *)

Section Entries.
Variable w : world.

(** What the last three steps of the checks write for a file: the
    notification for a test file, the warning for a source file without
    its test file, and the warning for a long file. *)
Definition test_file_notification (filePath : jsstring) : list jsstring :=
  if isTestFile filePath then [msg_test_file (Path.basename filePath)] else [].

Definition missing_test_warning (filePath : jsstring) : list jsstring :=
  if negb (isTestFile filePath) && isSourceFile filePath
     && negb (existsSync w (getTestFilePath filePath))
  then [msg_no_test_file (Path.basename filePath)
          (Path.basename (getTestFilePath filePath))]
  else [].

Definition size_warning (filePath content : jsstring) : list jsstring :=
  if 600 <? length (split newline content)
  then [msg_size (Path.basename filePath) (length (split newline content))]
  else [].

(** Does the extension send the file to one of the two language checks? *)
Definition has_language_check (ext : jsstring) : bool :=
  array_includes [js ".js"; js ".jsx"; js ".ts"; js ".tsx"] ext
  || array_includes [js ".py"] ext.

End Entries.

(** *** The lint commands and the catalogue of messages *)

(** The commands the two language checks run. *)
Definition eslint_command (filePath : jsstring) : jsstring :=
  js "npx eslint --quiet " ++ [dquote] ++ filePath ++ [dquote].

Definition pylint_command (filePath : jsstring) : jsstring :=
  js "pylint --errors-only " ++ [dquote] ++ filePath ++ [dquote].

(** The output captured from a failed command, as the [catch] blocks read
    it: nothing captured reads as the empty string. *)
Definition captured (e : js_error) : jsstring :=
  match stdout e with
  | Some out => out
  | None => []
  end.

(** What each step of the two language checks writes. *)
Definition todo_notification (content base : jsstring) : list jsstring :=
  if 0 <? count_matches content re_todo
  then [msg_todo (count_matches content re_todo) base]
  else [].

Definition console_log_warning (content base : jsstring) : list jsstring :=
  if 0 <? count_matches content re_console_log
  then [msg_console_log (count_matches content re_console_log) base]
  else [].

Definition print_warning (content base : jsstring) : list jsstring :=
  if 0 <? count_matches content re_print
  then [msg_print (count_matches content re_print) base]
  else [].

Definition eslint_notification (w : world) (filePath : jsstring) : list jsstring :=
  match run_command w (eslint_command filePath) with
  | inr _ => [msg_eslint_passed (Path.basename filePath)]
  | inl _ => []
  end.

Definition eslint_warning (w : world) (filePath : jsstring) : list jsstring :=
  match run_command w (eslint_command filePath) with
  | inr _ => []
  | inl e =>
      if 0 <? count_matches (captured e) re_error
      then [msg_eslint_issues (count_matches (captured e) re_error)
              (Path.basename filePath)]
      else []
  end.

Definition pylint_notification (w : world) (filePath : jsstring) : list jsstring :=
  match run_command w (pylint_command filePath) with
  | inr _ => [msg_pylint_passed (Path.basename filePath)]
  | inl _ => []
  end.

Definition pylint_warning (w : world) (filePath : jsstring) : list jsstring :=
  match run_command w (pylint_command filePath) with
  | inr _ => []
  | inl e =>
      if 0 <? length (captured e)
      then [msg_pylint_issues (Path.basename filePath)]
      else []
  end.

(** What the language check of a readable file writes, by its
    extension. *)
Definition language_notifications (w : world) (filePath content : jsstring)
    : list jsstring :=
  if array_includes [js ".js"; js ".jsx"; js ".ts"; js ".tsx"] (Path.extname filePath)
  then todo_notification content (Path.basename filePath) ++ eslint_notification w filePath
  else if array_includes [js ".py"] (Path.extname filePath)
  then pylint_notification w filePath
  else [].

Definition language_warnings (w : world) (filePath content : jsstring)
    : list jsstring :=
  if array_includes [js ".js"; js ".jsx"; js ".ts"; js ".tsx"] (Path.extname filePath)
  then console_log_warning content (Path.basename filePath) ++ eslint_warning w filePath
  else if array_includes [js ".py"] (Path.extname filePath)
  then print_warning content (Path.basename filePath) ++ pylint_warning w filePath
  else [].

(** Is the file one a lint command is run for: a file with a language
    check whose content can be read? *)
Definition lintable (w : world) (file : FileChange) : bool :=
  has_language_check (Path.extname (filePath file))
  && match fs w (filePath file) with
     | File _ => true
     | _ => false
     end.

(** The lint command run for a file, if one is. *)
Definition lint_command (w : world) (file : FileChange) : option jsstring :=
  if lintable w file then
    Some (if array_includes [js ".js"; js ".jsx"; js ".ts"; js ".tsx"]
               (Path.extname (filePath file))
          then eslint_command (filePath file)
          else pylint_command (filePath file))
  else None.

(** The record written for a changed file that exists and cannot be
    read. *)
Definition read_failure (w : world) (file : FileChange) : list diagnostic :=
  match fs w (filePath file) with
  | Unreadable e => [ErrorProcessing (filePath file) (message e)]
  | _ => []
  end.

(** The messages the hook can write about a file with the given base
    name. *)
Definition file_notification (base m : jsstring) : Prop :=
  check_notification base m \/ m = msg_test_file base.

Definition file_warning (base m : jsstring) : Prop :=
  check_warning base m
  \/ (exists testBase, m = msg_no_test_file base testBase)
  \/ (exists lines, m = msg_size base lines).

End OnFileChange.

(** ** [hooks/on-prompt-submit.js] *)

Module OnPromptSubmit.

(** The values a metadata object holds: whatever the host put there,
    which the hook passes through without looking at it, and what the hook
    writes itself. *)
Inductive value (H : Type) :=
| Host (v : H)
| Undefined
| Str (s : jsstring)
| Arr (l : list jsstring).
#[global] Arguments Host {H} v.
#[global] Arguments Undefined {H}.
#[global] Arguments Str {H} s.
#[global] Arguments Arr {H} l.

(** The context handed to the hook.  Objects are finite maps from
    property names to values; the order of the properties is not
    modelled. *)
Record PromptEvent (H : Type) := {
  prompt : jsstring;
  files : list H;
  metadata : gmap jsstring (value H)
}.
#[global] Arguments prompt {H} _.
#[global] Arguments files {H} _.
#[global] Arguments metadata {H} _.

Record IntentResult (H : Type) := {
  res_prompt : jsstring;
  res_metadata : gmap jsstring (value H)
}.
#[global] Arguments res_prompt {H} _.
#[global] Arguments res_metadata {H} _.

(** [/review|check|analyze.*code/i] *)
Definition re_codeReview : regex :=
  Alt (lit_i (js "review"))
    (Alt (lit_i (js "check"))
       (Seq (lit_i (js "analyze")) (Seq (Star any) (lit_i (js "code"))))).

(** [/refactor|clean|improve/i] *)
Definition re_refactoring : regex :=
  Alt (lit_i (js "refactor")) (Alt (lit_i (js "clean")) (lit_i (js "improve"))).

(** [/test|spec|coverage/i] *)
Definition re_testing : regex :=
  Alt (lit_i (js "test")) (Alt (lit_i (js "spec")) (lit_i (js "coverage"))).

(** [Object.entries(patterns)]: the properties in the order they are
    written. *)
Definition patterns : list (jsstring * regex) :=
  [ (js "codeReview", re_codeReview);
    (js "refactoring", re_refactoring);
    (js "testing", re_testing) ].

(** The loop [for (const [intent, pattern] of ...)], which stops at the
    first pattern that matches ([break]). *)
Fixpoint detectLoop (entries : list (jsstring * regex)) (prompt : jsstring)
    (detectedIntent : jsstring) : jsstring :=
  match entries with
  | [] => detectedIntent
  | (intent, pattern) :: rest =>
      if test pattern prompt then intent
      else detectLoop rest prompt detectedIntent
  end.

Definition detectIntent (prompt : jsstring) : jsstring :=
  detectLoop patterns prompt (js "general").

(** The [switch (detectedIntent)] that fills [suggestions]. *)
Definition suggestionsFor (detectedIntent : jsstring) : list jsstring :=
  if jsstring_eqb detectedIntent (js "codeReview") then
    [ js "💡 Tip: Use /smart-review command for structured code review";
      js "💡 Smart review checks for bugs, security issues, and best practices" ]
  else if jsstring_eqb detectedIntent (js "refactoring") then
    [ js "💡 Tip: The safe-refactoring skill ensures you refactor safely with tests";
      js "💡 Remember: refactor in small steps, running tests after each change" ]
  else if jsstring_eqb detectedIntent (js "testing") then
    [ js "💡 Tip: Use /gen-tests command to generate comprehensive test suites";
      js "💡 The test-generator subagent can autonomously create tests" ]
  else [].

(** The classification in the words of the specification: the first
    intent, in the order codeReview, refactoring, testing, whose pattern
    matches the prompt, and [general] when none does. *)
Definition spec_intent (prompt : jsstring) : jsstring :=
  match List.filter (fun entry => test (snd entry) prompt) patterns with
  | (intent, _) :: _ => intent
  | [] => js "general"
  end.

(** The returned metadata in the words of the specification: the shallow
    union of the input metadata with [detectedIntent] and, if there are
    suggestions, [suggestions]. *)
Definition spec_metadata {H : Type} (md : gmap jsstring (value H))
    (intent : jsstring) (tips : list jsstring) : gmap jsstring (value H) :=
  match tips with
  | [] => <[ js "detectedIntent" := Str intent ]> md
  | _ :: _ =>
      <[ js "suggestions" := Arr tips ]> (<[ js "detectedIntent" := Str intent ]> md)
  end.

(** *** The patterns as searches for words *)

(** A text as the [i] flag compares it: its ASCII letters in upper
    case. *)
Definition folded (s : jsstring) : jsstring := map canonicalize s.

(** Does the word occur in the text, letter case apart? *)
Definition mentions (text word : jsstring) : bool :=
  includes (folded text) (folded word).

(** On a folded text: does [CODE] start here or further on the line? *)
Fixpoint code_follows (s : jsstring) : bool :=
  startsWith s (folded (js "code")) ||
  match s with
  | [] => false
  | c :: s' => is_not_line_terminator c && code_follows s'
  end.

(** On a folded text: does [ANALYZE] occur with [CODE] after it on the
    same line?  The word [analyze] has seven letters. *)
Fixpoint analyze_before_code (s : jsstring) : bool :=
  startsWith s (folded (js "analyze")) && code_follows (skipn 7 s) ||
  match s with
  | [] => false
  | _ :: s' => analyze_before_code s'
  end.

(** The intent of a prompt by the words it holds. *)
Definition keyword_intent (text : jsstring) : jsstring :=
  if mentions text (js "review") || mentions text (js "check")
     || analyze_before_code (folded text)
  then js "codeReview"
  else if mentions text (js "refactor") || mentions text (js "clean")
          || mentions text (js "improve")
  then js "refactoring"
  else if mentions text (js "test") || mentions text (js "spec")
          || mentions text (js "coverage")
  then js "testing"
  else js "general".

Section Hook.
Context {H : Type}.
Variable w : world.

(** The exported hook.  The object literal
    [{ ...metadata, detectedIntent, suggestions: ... }] copies the
    properties of [metadata] and then writes the two named ones, the
    second always: with [undefined] when there is no suggestion. *)
Definition classify (context : PromptEvent H) : M (IntentResult H) :=
  let detectedIntent := detectIntent (prompt context) in
  let enhancedPrompt := prompt context in
  let suggestions := suggestionsFor detectedIntent in
  console_error
    (PromptLog (toISOString_now w) detectedIntent
       (length (prompt context)) (length (files context)));;
  mret {| res_prompt := enhancedPrompt;
          res_metadata :=
            <[ js "suggestions" :=
                 if 0 <? length suggestions then Arr suggestions else Undefined ]>
              (<[ js "detectedIntent" := Str detectedIntent ]>
                 (metadata context)) |}.

End Hook.

End OnPromptSubmit.

(** ** Sample worlds and events *)

Module Samples.
Import OnFileChange.

Definition no_command : jsstring -> js_error + jsstring :=
  fun _ => inl {| message := js "spawn failed"; stdout := None |}.

Definition world_with (entries : list (jsstring * node)) : world :=
  {| fs := disk entries; run_command := no_command;
     clock := js "2025-01-01T00:00:00.000Z" |}.

(** A world with an empty disk. *)
Definition bare_world : world := world_with [].

Definition change (p : jsstring) : ChangeEvent :=
  {| files := [ {| filePath := p; changeType := modified |} ]; operation := js "edit" |}.

(** A file that declares a function in balanced braces on its first line
    and has exactly a hundred lines, next to its test file. *)
Definition hundred_lines : jsstring := js "function f() {}" ++ List.repeat newline 99.

Definition app_world : world :=
  world_with [ (js "src/app.js", File hundred_lines); (js "src/app.test.js", File []) ].

(** A source file that exists but may not be read. *)
Definition permission_denied : js_error :=
  {| message := js "EACCES: permission denied, open 'src/server.go'"; stdout := None |}.

Definition locked_world : world :=
  world_with [ (js "src/server.go", Unreadable permission_denied) ].

(** A test file, and a source file whose test file is missing while
    another of the conventional candidates exists. *)
Definition utils_world : world :=
  world_with [ (js "src/utils.test.js", File (js "test('adds', () => {})")) ].

Definition calc_world : world :=
  world_with [ (js "src/calc.js", File (js "console.log(1)"));
               (js "src/calc.spec.js", File []) ].






(** Files of 600 and of 599 line feeds, which split into 601 and into
    600 pieces. *)
Definition long_world : world :=
  world_with [ (js "notes.txt", File (List.repeat newline 600));
               (js "short.txt", File (List.repeat newline 599)) ].

(** A component with two task comments and a debugging call, whose lint
    run fails with three lines of output, two of them errors. *)
Definition view_source : jsstring :=
  js "// TODO split this component" ++ [newline]
  ++ js "//FIXME: stale props" ++ [newline]
  ++ js "console.log(props)" ++ [newline].

Definition lint_report : js_error :=
  {| message := js "Command failed: npx eslint";
     stdout := Some (js "3:1 error no-console" ++ [newline]
                     ++ js "9:4 error no-unused-vars" ++ [newline]
                     ++ js "2 problems") |}.

Definition view_disk : jsstring -> node :=
  disk [ (js "src/view.jsx", File view_source) ].

Definition view_world : world :=
  {| fs := view_disk;
     run_command := fun _ => inl lint_report;
     clock := js "2025-01-01T00:00:00.000Z" |}.

(** A script with two prints, in a world where every command succeeds
    silently. *)
Definition script_source : jsstring :=
  js "print(1)" ++ [newline] ++ js "print(2)" ++ [newline].

(** The world of [view_world] at another time, where every command but
    the lint run of [src/view.jsx] succeeds. *)
Definition view_world_later : world :=
  {| fs := view_disk;
     run_command :=
       fun c =>
         if jsstring_eqb c (eslint_command (js "src/view.jsx"))
         then inl lint_report else inr [];
     clock := js "2025-06-30T12:00:00.000Z" |}.

Definition script_world : world :=
  {| fs := disk [ (js "tools/build.py", File script_source) ];
     run_command := fun _ => inr [];
     clock := js "2025-01-01T00:00:00.000Z" |}.

End Samples.

(** * Facts about strings *)

Section StringFacts.

Lemma count_unit_app (c : N) (s t : jsstring) :
  count_unit c (s ++ t) = count_unit c s + count_unit c t.
Proof. induction s as [|d s IH]; simpl; [reflexivity|]. rewrite IH. lia. Qed.

Lemma units_of_uint_digits (d : Decimal.uint) :
  forallb is_digit (units_of_uint d) = true.
Proof. induction d; simpl; auto. Qed.

Lemma count_unit_absent (c : N) (s : jsstring) :
  forallb (fun d => negb (c =? d)%N) s = true -> count_unit c s = 0.
Proof.
  induction s as [|d s IH]; simpl; [reflexivity|].
  intros [Hd Hs]%andb_true_iff. apply negb_true_iff in Hd. rewrite Hd, IH; auto.
Qed.

Lemma forallb_weaken (p q : N -> bool) (s : jsstring) :
  (forall c, p c = true -> q c = true) -> forallb p s = true -> forallb q s = true.
Proof.
  intros Hpq. induction s as [|d s IH]; simpl; [reflexivity|].
  intros [Hd Hs]%andb_true_iff. rewrite (Hpq _ Hd), IH; auto.
Qed.

Lemma ofNat_digits (n : nat) : forallb is_digit (ofNat n) = true.
Proof. apply units_of_uint_digits. Qed.

(** A count is not a digit away from any unit that is not one. *)
Lemma count_unit_ofNat (c : N) (n : nat) :
  is_digit c = false -> count_unit c (ofNat n) = 0.
Proof.
  intros Hc. apply count_unit_absent.
  apply (forallb_weaken is_digit); [|apply ofNat_digits].
  intros d Hd. apply negb_true_iff, N.eqb_neq. intros ->. congruence.
Qed.


Lemma split_nonempty (sep : N) (s : jsstring) : split sep s <> [].
Proof.
  destruct s as [|c s]; simpl; [discriminate|].
  destruct (c =? sep)%N; [discriminate|]. destruct (split sep s); discriminate.
Qed.

(** No piece of a split holds the separator. *)
Lemma split_pieces (sep : N) (s : jsstring) :
  Forall (fun l => count_unit sep l = 0) (split sep s).
Proof.
  induction s as [|c s IH]; simpl; [repeat constructor|].
  destruct (N.eqb_spec c sep) as [->|Hne].
  - constructor; [reflexivity|exact IH].
  - destruct (split sep s) as [|l ls]; [repeat constructor; simpl|].
    + destruct (N.eqb_spec sep c); [congruence|reflexivity].
    + inversion IH; subst. constructor; [|assumption]. simpl.
      destruct (N.eqb_spec sep c); [congruence|assumption].
Qed.

Lemma split_no_separator (sep : N) (l : jsstring) :
  count_unit sep l = 0 -> split sep l = [l].
Proof.
  induction l as [|c l IH]; simpl; [reflexivity|].
  rewrite (N.eqb_sym sep c). destruct (c =? sep)%N; [discriminate|].
  intros Hl. now rewrite IH.
Qed.

Lemma split_app_separator (sep : N) (l rest : jsstring) :
  count_unit sep l = 0 -> split sep (l ++ sep :: rest) = l :: split sep rest.
Proof.
  induction l as [|c l IH]; simpl.
  - now rewrite N.eqb_refl.
  - rewrite (N.eqb_sym sep c). destruct (c =? sep)%N; [discriminate|].
    intros Hl. now rewrite IH.
Qed.

(** Joining pieces that hold no separator and splitting again gives the
    pieces back. *)
Lemma split_join (sep : N) (ls : list jsstring) :
  ls <> [] -> Forall (fun l => count_unit sep l = 0) ls ->
  split sep (JsString.join [sep] ls) = ls.
Proof.
  induction ls as [|l ls IH]; [congruence|]. intros _ Hall.
  inversion Hall as [|? ? Hl Hls]; subst.
  destruct ls as [|l' ls]; [now apply split_no_separator|].
  change (JsString.join [sep] (l :: l' :: ls))
    with (l ++ sep :: JsString.join [sep] (l' :: ls)).
  rewrite split_app_separator by assumption. f_equal. now apply IH.
Qed.

Lemma startsWith_app (p s : jsstring) : startsWith (p ++ s) p = true.
Proof. induction p as [|c p IH]; simpl; [reflexivity|]. now rewrite N.eqb_refl. Qed.

Lemma jsstring_eqb_spec (a b : jsstring) : reflect (a = b) (jsstring_eqb a b).
Proof.
  revert b. induction a as [|c a IH]; intros [|d b]; simpl; try (constructor; congruence).
  destruct (N.eqb_spec c d) as [->|Hne]; simpl.
  - destruct (IH b); constructor; congruence.
  - constructor; congruence.
Qed.



Lemma includes_cons (c : N) (s p : jsstring) :
  includes (c :: s) p = startsWith (c :: s) p || includes s p.
Proof. reflexivity. Qed.




Lemma split_length (sep : N) (s : jsstring) :
  length (split sep s) = S (count_unit sep s).
Proof.
  induction s as [|c s IH]; [reflexivity|]. cbn [split count_unit].
  rewrite (N.eqb_sym sep c). destruct (c =? sep)%N; cbn [length]; [now rewrite IH|].
  destruct (split sep s); [discriminate IH|exact IH].
Qed.

Lemma units_of_uint_inj (d d' : Decimal.uint) :
  units_of_uint d = units_of_uint d' -> d = d'.
Proof.
  revert d'; induction d; intros [] E; cbn [units_of_uint] in E;
    try discriminate E; try reflexivity; f_equal; apply IHd; now injection E.
Qed.

Lemma ofNat_inj (n n' : nat) : ofNat n = ofNat n' -> n = n'.
Proof. intros E. now apply Unsigned.to_uint_inj, units_of_uint_inj. Qed.

End StringFacts.

(** * Computations that only append *)

Section AppendsOnly.

Lemma extend_fresh_l (d : heap) : extend fresh d = d.
Proof. now destruct d. Qed.

Lemma extend_fresh_r (h : heap) : extend h fresh = h.
Proof. destruct h; unfold extend; simpl; now rewrite !app_nil_r. Qed.

Lemma extend_assoc (h d e : heap) : extend (extend h d) e = extend h (extend d e).
Proof. unfold extend; simpl; now rewrite <- !app_assoc. Qed.

Lemma appends_only_ret {A : Type} (a : A) : appends_only (mret a : M A).
Proof. split; [intros h; cbn; now rewrite extend_fresh_r|reflexivity]. Qed.

Lemma appends_only_throw {A : Type} (e : js_error) : appends_only (throw e : M A).
Proof. split; [intros h; cbn; now rewrite extend_fresh_r|reflexivity]. Qed.

Lemma appends_only_push_warning (m : jsstring) : appends_only (push_warning m).
Proof.
  split; [intros h|reflexivity].
  unfold push_warning, extend; cbn. now rewrite !app_nil_r.
Qed.

Lemma appends_only_push_notification (m : jsstring) :
  appends_only (push_notification m).
Proof.
  split; [intros h|reflexivity].
  unfold push_notification, extend; cbn. now rewrite !app_nil_r.
Qed.

Lemma appends_only_console_error (d : diagnostic) : appends_only (console_error d).
Proof.
  split; [intros h|reflexivity].
  unfold console_error, extend; cbn. now rewrite !app_nil_r.
Qed.

Lemma appends_only_bind {A B : Type} (c : M A) (f : A -> M B) :
  appends_only c -> (forall a, appends_only (f a)) -> appends_only (c ≫= f).
Proof.
  intros [Hc Ec] Hf. unfold mbind, M_bind. split.
  - intros h. rewrite (Hc h). destruct (c fresh) as [[a|e] d]; cbn [fst snd]; [|reflexivity].
    destruct (Hf a) as [Ha _]. rewrite (Ha (extend h d)), (Ha d).
    cbn [fst snd]. now rewrite extend_assoc.
  - destruct (c fresh) as [[a|e] d]; cbn [fst snd] in *; [|assumption].
    destruct (Hf a) as [Ha Ea]. rewrite (Ha d). cbn [snd extend errors].
    now rewrite Ec, Ea.
Qed.

Lemma appends_only_try_catch {A : Type} (c : M A) (k : js_error -> M A) :
  appends_only c -> (forall e, appends_only (k e)) -> appends_only (try_catch c k).
Proof.
  intros [Hc Ec] Hk. unfold try_catch. split.
  - intros h. rewrite (Hc h). destruct (c fresh) as [[a|e] d]; cbn [fst snd]; [reflexivity|].
    destruct (Hk e) as [He _]. rewrite (He (extend h d)), (He d).
    cbn [fst snd]. now rewrite extend_assoc.
  - destruct (c fresh) as [[a|e] d]; cbn [fst snd] in *; [assumption|].
    destruct (Hk e) as [He Ee]. rewrite (He d). cbn [snd extend errors].
    now rewrite Ec, Ee.
Qed.

Lemma appends_only_when (b : bool) (c : M unit) :
  appends_only c -> appends_only (when b c).
Proof. destruct b; [trivial|intros _; apply appends_only_ret]. Qed.

(** What a computation that only appends does on any heap. *)
Lemma appends_only_run {A : Type} (c : M A) (h : heap) :
  appends_only c -> c h = (fst (c fresh), extend h (snd (c fresh))).
Proof. intros [Hc _]. apply Hc. Qed.

End AppendsOnly.

Ltac appends_only_step :=
  lazymatch goal with
  | |- appends_only (mret _) => apply appends_only_ret
  | |- appends_only (throw _) => apply appends_only_throw
  | |- appends_only (push_warning _) => apply appends_only_push_warning
  | |- appends_only (push_notification _) => apply appends_only_push_notification
  | |- appends_only (console_error _) => apply appends_only_console_error
  | |- appends_only (when _ _) => apply appends_only_when
  | |- appends_only (try_catch _ _) => apply appends_only_try_catch; [|intros ?]
  | |- appends_only (_ ≫= _) => apply appends_only_bind; [|intros ?]
  | |- appends_only (match ?x with _ => _ end) => destruct x
  end.

(** * Properties of the file-change advisor *)

Ltac check_shapes :=
  repeat
    lazymatch goal with
    | |- Forall _ [] => constructor
    | |- Forall _ (_ :: _) => constructor
    | |- OnFileChange.check_warning _ (OnFileChange.msg_console_log _ _) =>
        apply OnFileChange.warn_console_log
    | |- OnFileChange.check_warning _ (OnFileChange.msg_eslint_issues _ _) =>
        apply OnFileChange.warn_eslint_issues
    | |- OnFileChange.check_warning _ (OnFileChange.msg_print _ _) =>
        apply OnFileChange.warn_print
    | |- OnFileChange.check_warning _ (OnFileChange.msg_pylint_issues _) =>
        apply OnFileChange.warn_pylint_issues
    | |- OnFileChange.check_notification _ (OnFileChange.msg_todo _ _) =>
        apply OnFileChange.note_todo
    | |- OnFileChange.check_notification _ (OnFileChange.msg_eslint_passed _) =>
        apply OnFileChange.note_eslint_passed
    | |- OnFileChange.check_notification _ (OnFileChange.msg_pylint_passed _) =>
        apply OnFileChange.note_pylint_passed
    end.

Ltac tail_steps p :=
  unfold mret, M_ret, throw;
  destruct (OnFileChange.isTestFile p); destruct (OnFileChange.isSourceFile p);
  cbn [negb andb orb];
  try match goal with
      | |- context [fs ?w (OnFileChange.getTestFilePath p)] =>
          destruct (fs w (OnFileChange.getTestFilePath p))
      end;
  try match goal with
      | |- context [600 <? ?n] => destruct (600 <? n)
      end;
  unfold push_warning, push_notification;
  cbn [negb andb orb notifications warnings errors stderr fresh app];
  rewrite <- ?app_assoc, ?app_nil_r; reflexivity.

Section FileChange.
Import OnFileChange.
Variable w : world.

(** The window [lines] of the long-function check is cut to a hundred
    lines before it is counted, so it never has more. *)
Lemma window_at_most_100 (funcBody : jsstring) :
  length (split newline
            (JsString.join [newline] (firstn 100 (split newline funcBody)))) <= 100.
Proof.
  rewrite split_join.
  - rewrite length_firstn. lia.
  - pose proof (split_nonempty newline funcBody).
    destruct (split newline funcBody); [congruence|discriminate].
  - apply Forall_take, split_pieces.
Qed.

(** So the test that guards the long-function warning fails for every
    declaration, and the loop leaves the heap as it found it. *)
Lemma longFunctionLoop_silent (content filePath : jsstring)
    (functions : list jsstring) (h : heap) :
  longFunctionLoop content filePath functions h = (Normal tt, h).
Proof.
  induction functions as [|func rest IH]; [reflexivity|].
  cbn [longFunctionLoop].
  pose proof (window_at_most_100 (slice content (indexOf content func))) as Hle.
  apply Nat.ltb_ge in Hle. rewrite Hle. exact IH.
Qed.

Lemma appends_only_longFunctionLoop (content filePath : jsstring)
    (functions : list jsstring) :
  appends_only (longFunctionLoop content filePath functions).
Proof.
  split; [intros h|]; rewrite !longFunctionLoop_silent; cbn;
    [now rewrite extend_fresh_r|reflexivity].
Qed.

Lemma appends_only_checkJavaScript (p : jsstring) :
  appends_only (checkJavaScript w p).
Proof.
  unfold checkJavaScript, existsSync, readFileSync, execSync.
  destruct (fs w p); cbn [negb]; repeat appends_only_step;
    apply appends_only_longFunctionLoop.
Qed.

Lemma appends_only_checkPython (p : jsstring) : appends_only (checkPython w p).
Proof.
  unfold checkPython, existsSync, readFileSync, execSync.
  destruct (fs w p); cbn [negb]; repeat appends_only_step.
Qed.

Lemma appends_only_fileChecks (f : FileChange) (ext : jsstring) :
  appends_only (fileChecks w f ext).
Proof.
  unfold fileChecks; cbv zeta.
  repeat
    lazymatch goal with
    | |- appends_only (checkJavaScript _ _) => apply appends_only_checkJavaScript
    | |- appends_only (checkPython _ _) => apply appends_only_checkPython
    | |- appends_only (readFileSync _ _) => unfold readFileSync
    | |- _ => appends_only_step
    end.
Qed.

Lemma appends_only_processFile (f : FileChange) : appends_only (processFile w f).
Proof.
  unfold processFile. apply appends_only_try_catch;
    [apply appends_only_fileChecks|intros e; apply appends_only_console_error].
Qed.

Lemma processFile_returns (f : FileChange) (h : heap) :
  fst (processFile w f h) = Normal tt.
Proof.
  unfold processFile, try_catch.
  destruct (fileChecks w f _ h) as [[[]|e] h']; reflexivity.
Qed.

Lemma appends_only_forEachFile (l : list FileChange) :
  appends_only (forEachFile w l).
Proof.
  induction l as [|f l IH]; cbn [forEachFile]; [apply appends_only_ret|].
  apply appends_only_bind; [apply appends_only_processFile|intros _; exact IH].
Qed.

Lemma forEachFile_returns (l : list FileChange) (h : heap) :
  fst (forEachFile w l h) = Normal tt.
Proof.
  revert h. induction l as [|f l IH]; intros h; [reflexivity|].
  cbn [forEachFile]. unfold mbind, M_bind.
  pose proof (processFile_returns f h) as Hf.
  destruct (processFile w f h) as [[[]|e] h']; [apply IH|discriminate Hf].
Qed.

(** A call of the hook: it returns what the loop wrote, each empty list
    as [undefined], after logging one summary record. *)
Lemma advise_call (ev : ChangeEvent) :
  call (advise w ev) =
    (Normal
       {| res_notifications :=
            nonempty_or_undefined (notifications (added (forEachFile w (files ev))));
          res_warnings :=
            nonempty_or_undefined (warnings (added (forEachFile w (files ev))));
          res_errors :=
            nonempty_or_undefined (errors (added (forEachFile w (files ev)))) |},
     stderr (added (forEachFile w (files ev))) ++
       [ChangeLog (clock w) (operation ev) (length (files ev))
          (length (notifications (added (forEachFile w (files ev)))))
          (length (warnings (added (forEachFile w (files ev)))))
          (length (errors (added (forEachFile w (files ev)))))]).
Proof.
  unfold call, advise, added, mbind, M_bind, new_arrays, get, console_error; cbn [stderr fresh].
  change {| notifications := []; warnings := []; errors := []; stderr := [] |} with fresh.
  pose proof (forEachFile_returns (files ev) fresh) as Hr.
  destruct (forEachFile w (files ev) fresh) as [[[]|e] h]; [reflexivity|discriminate Hr].
Qed.

(** The loop writes the entries of the first file, then those of the
    rest. *)
Lemma added_forEachFile_cons (f : FileChange) (l : list FileChange) :
  added (forEachFile w (f :: l)) =
    extend (added (processFile w f)) (added (forEachFile w l)).
Proof.
  unfold added. cbn [forEachFile]. unfold mbind, M_bind.
  pose proof (processFile_returns f fresh) as Hf.
  destruct (processFile w f fresh) as [[[]|e] h]; [|discriminate Hf].
  now rewrite (appends_only_run _ h (appends_only_forEachFile l)).
Qed.

Lemma added_forEachFile_one (f : FileChange) :
  added (forEachFile w [f]) = added (processFile w f).
Proof. rewrite added_forEachFile_cons. apply extend_fresh_r. Qed.

Lemma listing_nonempty_or_undefined (l : list jsstring) :
  listing (nonempty_or_undefined l) = l.
Proof. now destruct l. Qed.

(** *** The two language checks on an empty heap *)

(** Runs the checks of a file symbolically, one case per outcome of each
    test and command. *)
Ltac run_checks :=
  repeat first
    [ progress unfold mbind, M_bind, mret, M_ret, when, try_catch, throw
    | progress cbn [push_warning push_notification console_error notifications warnings
                    errors stderr fresh app stdout message]
    | rewrite longFunctionLoop_silent
    | match goal with
      | |- context [match run_command ?w ?c with _ => _ end] =>
          destruct (run_command w c) as [[? [?|]]|?]
      | |- context [if ?b then _ else _] => destruct b
      end ].

Lemma checkJavaScript_fresh (p : jsstring) :
  match fs w p with
  | Absent => checkJavaScript w p fresh = (Normal tt, fresh)
  | Unreadable e => checkJavaScript w p fresh = (Throw e, fresh)
  | File c =>
      exists N W,
        checkJavaScript w p fresh =
          (Normal tt, {| notifications := N; warnings := W; errors := []; stderr := [] |})
        /\ Forall (check_notification (Path.basename p)) N
        /\ Forall (check_warning (Path.basename p)) W
  end.
Proof.
  unfold checkJavaScript, existsSync, readFileSync, execSync.
  destruct (fs w p) as [|content|e]; try reflexivity. cbn [negb].
  run_checks.
  all: eexists _, _; split; [reflexivity|].
  all: cbn [push_warning push_notification notifications warnings errors stderr fresh app].
  all: split; check_shapes.
Qed.

Lemma checkPython_fresh (p : jsstring) :
  match fs w p with
  | Absent => checkPython w p fresh = (Normal tt, fresh)
  | Unreadable e => checkPython w p fresh = (Throw e, fresh)
  | File c =>
      exists N W,
        checkPython w p fresh =
          (Normal tt, {| notifications := N; warnings := W; errors := []; stderr := [] |})
        /\ Forall (check_notification (Path.basename p)) N
        /\ Forall (check_warning (Path.basename p)) W
  end.
Proof.
  unfold checkPython, existsSync, readFileSync, execSync.
  destruct (fs w p) as [|content|e]; try reflexivity. cbn [negb].
  run_checks.
  all: eexists _, _; split; [reflexivity|].
  all: cbn [push_warning push_notification notifications warnings errors stderr fresh app].
  all: split; check_shapes.
Qed.

Lemma language_checks_exclusive (ext : jsstring) :
  array_includes [js ".js"; js ".jsx"; js ".ts"; js ".tsx"] ext = true ->
  array_includes [js ".py"] ext = false.
Proof.
  unfold array_includes; cbn [existsb]. intros Hjs.
  repeat (apply orb_true_iff in Hjs as [Hjs|Hjs]); try discriminate Hjs;
    apply (reflect_iff _ _ (jsstring_eqb_spec _ _)) in Hjs; subst ext;
    vm_compute; reflexivity.
Qed.

(** *** The checks on one file *)

(** What the checks write for a file, by what its path names: the entries
    of a language check, if one runs, followed by those of the last three
    steps.  A read that fails ends the checks where it stands: at once when
    a language check runs, and at the size check otherwise. *)
Lemma fileChecks_fresh (f : FileChange) :
  exists N W,
    Forall (check_notification (Path.basename (filePath f))) N
    /\ Forall (check_warning (Path.basename (filePath f))) W
    /\ match fs w (filePath f) with
       | File content =>
           fileChecks w f (Path.extname (filePath f)) fresh =
             (Normal tt,
              {| notifications := N ++ test_file_notification (filePath f);
                 warnings := W ++ missing_test_warning w (filePath f)
                               ++ size_warning (filePath f) content;
                 errors := []; stderr := [] |})
       | Absent =>
           fileChecks w f (Path.extname (filePath f)) fresh =
             (Normal tt,
              {| notifications := test_file_notification (filePath f);
                 warnings := missing_test_warning w (filePath f);
                 errors := []; stderr := [] |})
       | Unreadable e =>
           fileChecks w f (Path.extname (filePath f)) fresh =
             (Throw e,
              if has_language_check (Path.extname (filePath f)) then fresh
              else
                {| notifications := test_file_notification (filePath f);
                   warnings := missing_test_warning w (filePath f);
                   errors := []; stderr := [] |})
       end
    /\ (array_includes [js ".js"; js ".jsx"; js ".ts"; js ".tsx"]
          (Path.extname (filePath f)) = true ->
        N = notifications (added (checkJavaScript w (filePath f)))
        /\ W = warnings (added (checkJavaScript w (filePath f)))).
Proof.
  destruct f as [p ct]; cbn [filePath].
  pose proof (checkJavaScript_fresh p) as Hjs.
  pose proof (checkPython_fresh p) as Hpy.
  unfold fileChecks, has_language_check, test_file_notification, missing_test_warning,
    size_warning, added; cbn [filePath].
  destruct (array_includes [js ".js"; js ".jsx"; js ".ts"; js ".tsx"] (Path.extname p)) eqn:Ejs;
    [rewrite (language_checks_exclusive _ Ejs); clear Hpy
    |clear Hjs; destruct (array_includes [js ".py"] (Path.extname p)) eqn:Epy; [|clear Hpy]];
    unfold existsSync, readFileSync in *;
    destruct (fs w p) as [|content|e];
    try destruct Hjs as (N & W & Hjs & HN & HW);
    try destruct Hpy as (N & W & Hpy & HN & HW);
    try (exists N, W; split; [exact HN|split; [exact HW|]]);
    try (exists [], []; split; [constructor|split; [constructor|]]);
    (split;
     [ unfold mbind, M_bind, when, mret, M_ret; cbv beta iota; rewrite ?Hjs, ?Hpy;
       tail_steps p
     | first [ intros E; discriminate E
             | intros _; rewrite Hjs; split; reflexivity ] ]).
Qed.

(** The console.log warning comes first among the warnings of the
    JavaScript check, with the number of matches in the content, when there
    is a match; the lint warning is all that can follow it. *)
Lemma checkJavaScript_console_log (p content : jsstring) :
  fs w p = File content ->
  exists V,
    warnings (added (checkJavaScript w p)) =
      (if 0 <? count_matches content re_console_log
       then [msg_console_log (count_matches content re_console_log) (Path.basename p)]
       else []) ++ V
    /\ Forall (fun x => exists k, x = msg_eslint_issues k (Path.basename p)) V.
Proof.
  intros Hfile.
  unfold added, checkJavaScript, existsSync, readFileSync, execSync.
  rewrite Hfile. cbn [negb].
  run_checks.
  all: eexists; split;
    [ cbn [snd push_warning push_notification notifications warnings errors stderr
           fresh app]; reflexivity
    | repeat constructor; eauto ].
Qed.

End FileChange.

(** *** Telling the messages apart *)

Section Messages.
Import OnFileChange.

(** Evaluates the counts of a unit in the literals of a message. *)
Ltac count_literals E :=
  repeat match type of E with
         | context [count_unit ?c (js ?s)] =>
             let v := eval vm_compute in (count_unit c (js s)) in
             let H := fresh "H" in
             assert (count_unit c (js s) = v) as H by (vm_compute; reflexivity);
             rewrite H in E; clear H
         end.

(** The messages, unfolded. *)
Lemma msg_console_log_eq n b :
  msg_console_log n b = js "⚠️  Found " ++ ofNat n ++ js " console.log statement(s) in " ++ b.
Proof. reflexivity. Qed.
Lemma msg_eslint_issues_eq n b :
  msg_eslint_issues n b = js "⚠️  ESLint found " ++ ofNat n ++ js " issue(s) in " ++ b.
Proof. reflexivity. Qed.
Lemma msg_print_eq n b :
  msg_print n b = js "Found " ++ ofNat n ++ js " print statement(s) in " ++ b.
Proof. reflexivity. Qed.
Lemma msg_pylint_issues_eq b : msg_pylint_issues b = js "Pylint found issues in " ++ b.
Proof. reflexivity. Qed.
Lemma msg_no_test_file_eq b t :
  msg_no_test_file b t =
    js "⚠️  No test file found for " ++ b ++ js ". Consider creating " ++ t.
Proof. reflexivity. Qed.
Lemma msg_size_eq b n :
  msg_size b n =
    js "⚠️  " ++ b ++ js " is " ++ ofNat n
      ++ js " lines. Consider breaking into smaller modules.".
Proof. reflexivity. Qed.

Lemma msg_size_inj (base : jsstring) (n n' : nat) :
  msg_size base n = msg_size base n' -> n = n'.
Proof.
  rewrite !msg_size_eq. intros E.
  apply app_inv_head, app_inv_head, app_inv_head, app_inv_tail in E.
  now apply ofNat_inj.
Qed.

(** Unfolds the messages in [E], each by its own equation. *)
Ltac unfold_messages E :=
  repeat match type of E with
         | context [msg_console_log ?n ?b] => rewrite (msg_console_log_eq n b) in E
         | context [msg_eslint_issues ?n ?b] => rewrite (msg_eslint_issues_eq n b) in E
         | context [msg_print ?n ?b] => rewrite (msg_print_eq n b) in E
         | context [msg_pylint_issues ?b] => rewrite (msg_pylint_issues_eq b) in E
         | context [msg_no_test_file ?b ?t] => rewrite (msg_no_test_file_eq b t) in E
         | context [msg_size ?b ?n] => rewrite (msg_size_eq b n) in E
         end.

(** Two messages are told apart by how often a unit occurs in them. *)
Ltac differ_by_count c :=
  let E := fresh "E" in
  intros E; apply (f_equal (count_unit c)) in E;
  unfold_messages E;
  rewrite ?count_unit_app in E;
  rewrite ?count_unit_ofNat in E by reflexivity;
  count_literals E; lia.

(** Two messages are told apart by their first units. *)
Ltac differ_by_prefix n :=
  let E := fresh "E" in
  intros E; apply (f_equal (firstn n)) in E; vm_compute in E; discriminate E.

Lemma size_is_not_no_test_file (base testBase : jsstring) (lines : nat) :
  msg_size base lines <> msg_no_test_file base testBase.
Proof. differ_by_count 102%N. Qed.

Lemma check_warning_is_not_size (base x : jsstring) (lines : nat) :
  check_warning base x -> x <> msg_size base lines.
Proof.
  intros [n|n|n|]; [differ_by_count 40%N|differ_by_count 40%N|differ_by_count 40%N
                   |differ_by_count 80%N].
Qed.

Lemma check_warning_is_not_no_test_file (base testBase x : jsstring) :
  check_warning base x -> x <> msg_no_test_file base testBase.
Proof. intros [n|n|n|]; differ_by_prefix 5. Qed.

Lemma check_notification_is_not_test_file (base x : jsstring) :
  check_notification base x -> x <> msg_test_file base.
Proof. intros [n| |]; differ_by_prefix 3. Qed.

Lemma eslint_issues_is_not_console_log (base : jsstring) (j k : nat) :
  msg_eslint_issues j base <> msg_console_log k base.
Proof. differ_by_prefix 5. Qed.

Lemma no_test_file_is_not_console_log (base testBase : jsstring) (k : nat) :
  msg_no_test_file base testBase <> msg_console_log k base.
Proof. differ_by_prefix 5. Qed.

Lemma size_is_not_console_log (base : jsstring) (lines k : nat) :
  msg_size base lines <> msg_console_log k base.
Proof. differ_by_count 40%N. Qed.





Lemma occurrences_app (m : jsstring) (l1 l2 : list jsstring) :
  occurrences m (l1 ++ l2) = occurrences m l1 + occurrences m l2.
Proof. unfold occurrences. now rewrite List.filter_app, length_app. Qed.

Lemma occurrences_absent (m : jsstring) (l : list jsstring) :
  Forall (fun x => x <> m) l -> occurrences m l = 0.
Proof.
  unfold occurrences. induction 1 as [|x l Hx _ IH]; [reflexivity|]. cbn [List.filter].
  destruct (jsstring_eqb_spec m x); [congruence|exact IH].
Qed.

Lemma occurrences_one (m : jsstring) : occurrences m [m] = 1.
Proof.
  unfold occurrences; cbn [List.filter].
  destruct (jsstring_eqb_spec m m); [reflexivity|congruence].
Qed.

End Messages.

(** * The claims about the file-change advisor *)

Section FileChangeClaims.
Import OnFileChange.
Variable w : world.

(** What one turn of the loop writes for a file, by what its path names:
    the failure of a read is caught, and logged after what was written
    before it. *)
Lemma processFile_added (f : FileChange) :
  exists N W,
    Forall (check_notification (Path.basename (filePath f))) N
    /\ Forall (check_warning (Path.basename (filePath f))) W
    /\ added (processFile w f) =
         match fs w (filePath f) with
         | File content =>
             {| notifications := N ++ test_file_notification (filePath f);
                warnings := W ++ missing_test_warning w (filePath f)
                              ++ size_warning (filePath f) content;
                errors := []; stderr := [] |}
         | Absent =>
             {| notifications := test_file_notification (filePath f);
                warnings := missing_test_warning w (filePath f);
                errors := []; stderr := [] |}
         | Unreadable e =>
             {| notifications :=
                  if has_language_check (Path.extname (filePath f)) then []
                  else test_file_notification (filePath f);
                warnings :=
                  if has_language_check (Path.extname (filePath f)) then []
                  else missing_test_warning w (filePath f);
                errors := [];
                stderr := [ErrorProcessing (filePath f) (message e)] |}
         end
    /\ (array_includes [js ".js"; js ".jsx"; js ".ts"; js ".tsx"]
          (Path.extname (filePath f)) = true ->
        W = warnings (added (checkJavaScript w (filePath f)))).
Proof.
  destruct (fileChecks_fresh w f) as (N & W & HN & HW & Hrun & Hjs).
  exists N, W. split; [exact HN|split; [exact HW|]].
  split; [|intros E; now destruct (Hjs E)].
  unfold added, processFile, try_catch.
  destruct (fs w (filePath f)) as [|content|e]; rewrite Hrun; try reflexivity.
  destruct (has_language_check _); reflexivity.
Qed.

(** A call on a single changed file returns what the loop wrote for it. *)
Lemma advise_one_file (f : FileChange) (op : jsstring) :
  exists log,
    call (advise w {| files := [f]; operation := op |}) =
      (Normal
         {| res_notifications :=
              nonempty_or_undefined (notifications (added (processFile w f)));
            res_warnings :=
              nonempty_or_undefined (warnings (added (processFile w f)));
            res_errors :=
              nonempty_or_undefined (errors (added (processFile w f))) |},
       log).
Proof.
  rewrite advise_call. cbn [files]. rewrite added_forEachFile_one. eauto.
Qed.

Lemma added_forEachFile_app (l1 l2 : list FileChange) :
  added (forEachFile w (l1 ++ l2)) =
    extend (added (forEachFile w l1)) (added (forEachFile w l2)).
Proof.
  induction l1 as [|f l1 IH]; cbn [app].
  - change (added (forEachFile w [])) with fresh. now rewrite extend_fresh_l.
  - now rewrite !added_forEachFile_cons, IH, extend_assoc.
Qed.

(** The entries of a batch are those of its files, in order: the result of
    a call on the files [l1 ++ l2] lists the notifications of a call on
    [l1] followed by those of a call on [l2], and so for the warnings.  What
    is shown below for a single changed file thus holds for each file of a
    batch. *)
Theorem advise_batch_concatenates (l1 l2 : list FileChange) (op : jsstring) :
  exists r r1 r2 log log1 log2,
    call (advise w {| files := l1 ++ l2; operation := op |}) = (Normal r, log)
    /\ call (advise w {| files := l1; operation := op |}) = (Normal r1, log1)
    /\ call (advise w {| files := l2; operation := op |}) = (Normal r2, log2)
    /\ listing (res_notifications r) =
         listing (res_notifications r1) ++ listing (res_notifications r2)
    /\ listing (res_warnings r) =
         listing (res_warnings r1) ++ listing (res_warnings r2).
Proof.
  rewrite !advise_call. cbn [files]. eexists _, _, _, _, _, _.
  split; [reflexivity|split; [reflexivity|split; [reflexivity|]]].
  cbn [res_notifications res_warnings]. rewrite !listing_nonempty_or_undefined.
  rewrite added_forEachFile_app. split; reflexivity.
Qed.

(** C3.  On an event without files the hook returns a result whose three
    lists are all [undefined] (no notification, no warning, no error),
    having logged the summary of an empty batch. *)
Theorem advise_no_files (op : jsstring) :
  call (advise w {| files := []; operation := op |}) =
    (Normal {| res_notifications := None; res_warnings := None; res_errors := None |},
     [ChangeLog (clock w) op 0 0 0 0]).
Proof. reflexivity. Qed.

(** C10.  Nothing ever writes to [errors]: neither of the two language
    checks nor a turn of the loop changes the array, on any heap, and the
    [errors] of the result of every call is [undefined]. *)
Theorem advise_errors_always_undefined :
  (forall (p : jsstring) (h : heap), errors (snd (checkJavaScript w p h)) = errors h)
  /\ (forall (p : jsstring) (h : heap), errors (snd (checkPython w p h)) = errors h)
  /\ (forall (f : FileChange) (h : heap), errors (snd (processFile w f h)) = errors h)
  /\ (forall ev : ChangeEvent,
        exists r log, call (advise w ev) = (Normal r, log) /\ res_errors r = None).
Proof.
  assert (Hkeep : forall (A : Type) (c : M A) (h : heap),
             appends_only c -> errors (snd (c h)) = errors h).
  { intros A c h [Hc Ec]. rewrite (Hc h). cbn [snd extend errors].
    rewrite Ec. apply app_nil_r. }
  repeat split.
  - intros p h. apply Hkeep, appends_only_checkJavaScript.
  - intros p h. apply Hkeep, appends_only_checkPython.
  - intros f h. apply Hkeep, appends_only_processFile.
  - intros ev. rewrite advise_call. eexists _, _. split; [reflexivity|].
    cbn [res_errors]. unfold added.
    destruct (appends_only_forEachFile w (files ev)) as [_ ->]. reflexivity.
Qed.

(** C7, as amended.  No call of the hook throws.  When the checks of a
    file fail with an error, the loop catches it: the turn returns
    normally, writes one record with the path and the message of the error
    to the diagnostic stream and nothing to [errors], and keeps what the
    checks had written before the read that failed, which is nothing when
    a language check ran and otherwise the test-file notification or the
    missing-test warning of the file.  The loop then goes on with the next
    file. *)
Theorem advise_catches_file_failures :
  (forall ev : ChangeEvent, exists r log, call (advise w ev) = (Normal r, log))
  /\ (forall (f : FileChange) (h : heap) (e : js_error),
        fst (fileChecks w f (Path.extname (filePath f)) h) = Throw e ->
        exists d,
          processFile w f h = (Normal tt, extend h d)
          /\ stderr d = [ErrorProcessing (filePath f) (message e)]
          /\ errors d = []
          /\ notifications d =
               (if has_language_check (Path.extname (filePath f)) then []
                else test_file_notification (filePath f))
          /\ warnings d =
               (if has_language_check (Path.extname (filePath f)) then []
                else missing_test_warning w (filePath f)))
  /\ (forall (f : FileChange) (rest : list FileChange) (h : heap),
        forEachFile w (f :: rest) h = forEachFile w rest (snd (processFile w f h))).
Proof.
  split; [|split].
  - intros ev. rewrite advise_call. eauto.
  - intros f h e Hthrow.
    rewrite (appends_only_run _ h (appends_only_fileChecks w f _)) in Hthrow.
    cbn [fst] in Hthrow.
    destruct (fileChecks_fresh w f) as (N0 & W0 & _ & _ & Hrun & _).
    destruct (processFile_added f) as (N & W & _ & _ & Hd & _).
    exists (added (processFile w f)).
    rewrite (appends_only_run _ h (appends_only_processFile w f)), processFile_returns.
    split; [reflexivity|].
    destruct (fs w (filePath f)) as [|content|e'];
      rewrite Hrun in Hthrow; try discriminate Hthrow.
    injection Hthrow as ->. rewrite Hd. repeat split.
  - intros f rest h. cbn [forEachFile]. unfold mbind, M_bind.
    pose proof (processFile_returns w f h) as Hf.
    destruct (processFile w f h) as [[[]|e] h']; [reflexivity|discriminate Hf].
Qed.

(** C4, as amended.  For a changed file that [isTestFile] classifies as a
    test file (its base name, in lower case, contains [.test.], [.spec.] or
    [_test.] or starts with [test_], or its path contains [/tests/],
    [/test/] or [/__tests__/]) and that is absent or can be read, the hook
    writes the test-file notification of the file exactly once and no
    missing-test warning for it, whatever the name of the test file. *)
Theorem test_file_notified_once (f : FileChange) (op : jsstring) :
  isTestFile (filePath f) = true ->
  (forall e, fs w (filePath f) <> Unreadable e) ->
  exists r log,
    call (advise w {| files := [f]; operation := op |}) = (Normal r, log)
    /\ occurrences (msg_test_file (Path.basename (filePath f)))
         (listing (res_notifications r)) = 1
    /\ forall testBase,
         ~ In (msg_no_test_file (Path.basename (filePath f)) testBase)
             (listing (res_warnings r)).
Proof.
  intros Htest Hread.
  destruct (advise_one_file f op) as [log ->]. eexists _, _. split; [reflexivity|].
  cbn [res_notifications res_warnings]. rewrite !listing_nonempty_or_undefined.
  destruct (processFile_added f) as (N & W & HN & HW & -> & _).
  assert (Hnote : test_file_notification (filePath f)
                  = [msg_test_file (Path.basename (filePath f))])
    by (unfold test_file_notification; now rewrite Htest).
  assert (Hmiss : missing_test_warning w (filePath f) = [])
    by (unfold missing_test_warning; now rewrite Htest).
  destruct (fs w (filePath f)) as [|content|e]; [| |now destruct (Hread e)];
    cbn [notifications warnings]; rewrite Hnote, Hmiss.
  - split; [apply occurrences_one|intros testBase []].
  - split.
    + rewrite occurrences_app, occurrences_one, occurrences_absent; [reflexivity|].
      eapply List.Forall_impl; [|exact HN]. intros x Hx.
      now apply check_notification_is_not_test_file.
    + intros testBase [Hin|Hin]%in_app_or.
      * rewrite List.Forall_forall in HW.
        now apply (check_warning_is_not_no_test_file _ testBase _ (HW _ Hin)).
      * cbn [app] in Hin. unfold size_warning in Hin.
        destruct (600 <? _); [|destruct Hin].
        destruct Hin as [Heq|[]]. now apply size_is_not_no_test_file in Heq.
Qed.



(** The number of [console.log(] in a JavaScript or TypeScript file is
    what its warning reports: with N > 0 matches the warning with that N is
    among the warnings of the hook exactly once, and with none no
    console.log warning is, whatever its number. *)
Theorem console_log_warning_reports_count (f : FileChange) (op content : jsstring) :
  array_includes [js ".js"; js ".jsx"; js ".ts"; js ".tsx"]
    (Path.extname (filePath f)) = true ->
  fs w (filePath f) = File content ->
  exists r log,
    call (advise w {| files := [f]; operation := op |}) = (Normal r, log)
    /\ occurrences
         (msg_console_log (count_matches content re_console_log)
            (Path.basename (filePath f)))
         (listing (res_warnings r))
       = (if 0 <? count_matches content re_console_log then 1 else 0)
    /\ forall k,
         In (msg_console_log k (Path.basename (filePath f))) (listing (res_warnings r)) ->
         0 < count_matches content re_console_log.
Proof.
  intros Hext Hfile.
  destruct (advise_one_file f op) as [log ->]. eexists _, _. split; [reflexivity|].
  cbn [res_warnings]. rewrite !listing_nonempty_or_undefined.
  destruct (processFile_added f) as (N & W & _ & _ & -> & HW). rewrite Hfile.
  cbn [warnings]. rewrite (HW Hext).
  destruct (checkJavaScript_console_log w _ _ Hfile) as (V & -> & HV).
  assert (HVs : forall k,
            Forall (fun x => x <> msg_console_log k (Path.basename (filePath f))) V).
  { intros k. eapply List.Forall_impl; [|exact HV]. intros x [j ->].
    apply eslint_issues_is_not_console_log. }
  assert (HMs : forall k,
            Forall (fun x => x <> msg_console_log k (Path.basename (filePath f)))
              (missing_test_warning w (filePath f) ++ size_warning (filePath f) content)).
  { intros k. apply Forall_app. split.
    - unfold missing_test_warning. destruct (_ && _); repeat constructor.
      apply no_test_file_is_not_console_log.
    - unfold size_warning. destruct (600 <? _); repeat constructor.
      apply size_is_not_console_log. }
  split.
  - rewrite occurrences_app, (occurrences_absent _ _ (HMs _)).
    rewrite occurrences_app, (occurrences_absent _ _ (HVs _)).
    destruct (0 <? _); [rewrite occurrences_one|]; reflexivity.
  - intros k [[Hin|Hin]%in_app_or|Hin]%in_app_or.
    + destruct (0 <? _) eqn:Hpos; [now apply Nat.ltb_lt|destruct Hin].
    + specialize (HVs k). rewrite List.Forall_forall in HVs. now destruct (HVs _ Hin).
    + specialize (HMs k). rewrite List.Forall_forall in HMs. now destruct (HMs _ Hin).
Qed.

(** The hook keeps nothing from one call to the next: started on any
    heap, it returns what a call on an empty one returns, and adds to the
    diagnostic stream what that call writes. *)
Theorem advise_independent_of_heap (ev : ChangeEvent) (h : heap) :
  fst (advise w ev h) = fst (call (advise w ev))
  /\ stderr (snd (advise w ev h)) = stderr h ++ snd (call (advise w ev)).
Proof.
  rewrite advise_call. cbn [fst snd].
  unfold advise, mbind, M_bind, new_arrays, get, console_error.
  rewrite (appends_only_run _ _ (appends_only_forEachFile w (files ev))).
  rewrite forEachFile_returns. fold (added (forEachFile w (files ev))).
  cbn [fst snd extend notifications warnings errors stderr app].
  split; [reflexivity|]. now rewrite app_assoc.
Qed.

End FileChangeClaims.

(** A source file that cannot be read still gets its missing-test warning:
    the warning is written before the size check reads the file and
    fails. *)
Lemma advise_failed_file_keeps_its_warning :
  fst (OnFileChange.fileChecks Samples.locked_world
         {| OnFileChange.filePath := js "src/server.go";
            OnFileChange.changeType := OnFileChange.modified |}
         (Path.extname (js "src/server.go")) fresh)
    = Throw Samples.permission_denied
  /\ call (OnFileChange.advise Samples.locked_world (Samples.change (js "src/server.go"))) =
       (Normal
          {| OnFileChange.res_notifications := None;
             OnFileChange.res_warnings :=
               Some [js "⚠️  No test file found for server.go. Consider creating server.test.go"];
             OnFileChange.res_errors := None |},
        [ErrorProcessing (js "src/server.go")
           (js "EACCES: permission denied, open 'src/server.go'");
         ChangeLog (js "2025-01-01T00:00:00.000Z") (js "edit") 1 0 1 0]).
Proof. split; vm_compute; reflexivity. Qed.

(** C1.  A JavaScript file whose first line declares a function in
    balanced braces and which has exactly a hundred lines: the pattern
    finds the declaration, the window cut after it has its full hundred
    lines and as many opening as closing braces, and yet the hook returns
    no warning at all. *)
Theorem long_function_warning_not_written :
  RegExp.or_empty (RegExp.match_g Samples.hundred_lines OnFileChange.re_function)
    = [js "function f() {"]
  /\ length
       (split newline
          (JsString.join [newline]
             (firstn 100
                (split newline
                   (slice Samples.hundred_lines
                      (indexOf Samples.hundred_lines (js "function f() {")))))))
     = 100
  /\ OnFileChange.count_matches
       (JsString.join [newline]
          (firstn 100
             (split newline
                (slice Samples.hundred_lines
                   (indexOf Samples.hundred_lines (js "function f() {"))))))
       OnFileChange.re_open_brace
     = OnFileChange.count_matches
         (JsString.join [newline]
            (firstn 100
               (split newline
                  (slice Samples.hundred_lines
                     (indexOf Samples.hundred_lines (js "function f() {"))))))
         OnFileChange.re_close_brace
  /\ call (OnFileChange.advise Samples.app_world (Samples.change (js "src/app.js"))) =
       (Normal
          {| OnFileChange.res_notifications := None;
             OnFileChange.res_warnings := None;
             OnFileChange.res_errors := None |},
        [ChangeLog (js "2025-01-01T00:00:00.000Z") (js "edit") 1 0 0 0]).
Proof. split; [|split; [|split]]; vm_compute; reflexivity. Qed.

(** A test file on disk gets its notification once and no missing-test
    warning. *)
Lemma test_file_notified_once_witness :
  OnFileChange.isTestFile (js "src/utils.test.js") = true
  /\ exists r log,
       call (OnFileChange.advise Samples.utils_world (Samples.change (js "src/utils.test.js")))
         = (Normal r, log)
       /\ OnFileChange.occurrences (OnFileChange.msg_test_file (js "utils.test.js"))
            (OnFileChange.listing (OnFileChange.res_notifications r)) = 1
       /\ forall testBase,
            ~ In (OnFileChange.msg_no_test_file (js "utils.test.js") testBase)
                (OnFileChange.listing (OnFileChange.res_warnings r)).
Proof.
  split; [vm_compute; reflexivity|].
  assert (Hbase : Path.basename (js "src/utils.test.js") = js "utils.test.js")
    by (vm_compute; reflexivity).
  rewrite <- Hbase.
  apply (test_file_notified_once Samples.utils_world
           {| OnFileChange.filePath := js "src/utils.test.js";
              OnFileChange.changeType := OnFileChange.modified |} (js "edit")).
  - vm_compute; reflexivity.
  - intros e He. vm_compute in He. discriminate He.
Defined.

(** A file in a [tests] directory named by a relative path: the path has
    the segment [tests], so the specification classifies the file as a test
    file, but it does not contain [/tests/], so [isTestFile] does not; the
    hook writes no test-file notification, and a missing-test warning. *)
Lemma advise_relative_tests_directory :
  OnFileChange.spec_isTestFile (js "tests/helper.js") = true
  /\ OnFileChange.isTestFile (js "tests/helper.js") = false
  /\ call (OnFileChange.advise Samples.bare_world (Samples.change (js "tests/helper.js"))) =
       (Normal
          {| OnFileChange.res_notifications := None;
             OnFileChange.res_warnings :=
               Some [js "⚠️  No test file found for helper.js. Consider creating helper.test.js"];
             OnFileChange.res_errors := None |},
        [ChangeLog (js "2025-01-01T00:00:00.000Z") (js "edit") 1 0 1 0]).
Proof. split; [|split]; vm_compute; reflexivity. Qed.





(** [src/calc.js] holds one [console.log(]: its warning says 1. *)
Lemma console_log_warning_reports_count_witness :
  exists r log,
    call (OnFileChange.advise Samples.calc_world (Samples.change (js "src/calc.js")))
      = (Normal r, log)
    /\ OnFileChange.occurrences (OnFileChange.msg_console_log 1 (js "calc.js"))
         (OnFileChange.listing (OnFileChange.res_warnings r)) = 1
    /\ forall k,
         In (OnFileChange.msg_console_log k (js "calc.js"))
           (OnFileChange.listing (OnFileChange.res_warnings r)) -> 0 < 1.
Proof.
  assert (Hbase : Path.basename (js "src/calc.js") = js "calc.js")
    by (vm_compute; reflexivity).
  assert (Hcount : OnFileChange.count_matches (js "console.log(1)")
                     OnFileChange.re_console_log = 1) by (vm_compute; reflexivity).
  pose proof (console_log_warning_reports_count Samples.calc_world
                {| OnFileChange.filePath := js "src/calc.js";
                   OnFileChange.changeType := OnFileChange.modified |}
                (js "edit") (js "console.log(1)")) as Hw.
  cbn [OnFileChange.filePath] in Hw. rewrite Hbase, Hcount in Hw.
  apply Hw; vm_compute; reflexivity.
Defined.

(** * Properties of the prompt-intent classifier *)

Section PromptSubmit.
Import OnPromptSubmit.
Context {H : Type}.
Variable w : world.

Lemma suggestions_ne_detectedIntent : js "suggestions" <> js "detectedIntent".
Proof. intro E. vm_compute in E. discriminate E. Qed.

(** A call of the hook never throws: it writes one record to the
    diagnostic stream and returns. *)
Lemma classify_call (ctx : PromptEvent H) :
  call (classify w ctx) =
    (Normal
       {| res_prompt := prompt ctx;
          res_metadata :=
            <[ js "suggestions" :=
                 if 0 <? length (suggestionsFor (detectIntent (prompt ctx)))
                 then Arr (suggestionsFor (detectIntent (prompt ctx)))
                 else Undefined ]>
              (<[ js "detectedIntent" := Str (detectIntent (prompt ctx)) ]>
                 (metadata ctx)) |},
     [PromptLog (clock w) (detectIntent (prompt ctx))
        (length (prompt ctx)) (length (files ctx))]).
Proof. reflexivity. Qed.

Lemma detectIntent_first_match (p : jsstring) : detectIntent p = spec_intent p.
Proof.
  unfold detectIntent, spec_intent, patterns; simpl.
  destruct (test re_codeReview p); [reflexivity|].
  destruct (test re_refactoring p); [reflexivity|].
  destruct (test re_testing p); reflexivity.
Qed.

Lemma detectIntent_general (p : jsstring) :
  test re_codeReview p = false -> test re_refactoring p = false ->
  test re_testing p = false -> detectIntent p = js "general".
Proof.
  intros Hc Hr Ht. unfold detectIntent, patterns; simpl.
  now rewrite Hc, Hr, Ht.
Qed.

Lemma lookup_detectedIntent (md : gmap jsstring (value H)) (v u : value H) :
  <[ js "suggestions" := u ]> (<[ js "detectedIntent" := v ]> md)
    !! js "detectedIntent" = Some v.
Proof.
  rewrite lookup_insert_ne by apply suggestions_ne_detectedIntent.
  apply lookup_insert_eq.
Qed.

Lemma suggestions_value (tips : list jsstring) :
  (if 0 <? length tips then Arr tips else @Undefined H) =
  match tips with [] => Undefined | _ :: _ => Arr tips end.
Proof. now destruct tips. Qed.

(** C2.  For every prompt, the intent [classify] writes to the metadata is
    the first one, in the order codeReview, refactoring, testing, whose
    pattern matches the prompt; a prompt that matches both the codeReview
    and the refactoring pattern (such as the one shown) is classified as
    codeReview; and [please refactor this messy function] is classified as
    refactoring, with the two suggestions of that intent. *)
Theorem classify_first_match_in_order :
  (forall ctx : PromptEvent H,
     exists r,
       fst (call (classify w ctx)) = Normal r
       /\ res_metadata r !! js "detectedIntent" = Some (Str (spec_intent (prompt ctx)))
       /\ (test re_codeReview (prompt ctx) = true ->
           test re_refactoring (prompt ctx) = true ->
           res_metadata r !! js "detectedIntent" = Some (Str (js "codeReview"))))
  /\ (test re_codeReview (js "review and clean up this module") = true
      /\ test re_refactoring (js "review and clean up this module") = true
      /\ detectIntent (js "review and clean up this module") = js "codeReview")
  /\ (forall (fl : list H) (md : gmap jsstring (value H)),
       exists r,
         fst (call (classify w
                      {| prompt := js "please refactor this messy function";
                         files := fl; metadata := md |})) = Normal r
         /\ res_metadata r !! js "detectedIntent" = Some (Str (js "refactoring"))
         /\ res_metadata r !! js "suggestions" =
              Some (Arr [ js "💡 Tip: The safe-refactoring skill ensures you refactor safely with tests";
                          js "💡 Remember: refactor in small steps, running tests after each change" ])).
Proof.
  split; [|split].
  - intros ctx. rewrite classify_call. eexists; split; [reflexivity|]. cbn [res_metadata].
    rewrite lookup_detectedIntent, detectIntent_first_match. split; [reflexivity|].
    intros Hc _. unfold spec_intent, patterns; cbn [List.filter snd]. now rewrite Hc.
  - split; [|split]; vm_compute; reflexivity.
  - intros fl md. rewrite classify_call. eexists; split; [reflexivity|].
    cbn [res_metadata prompt]. rewrite lookup_detectedIntent, lookup_insert_eq.
    split; do 2 f_equal.
Qed.

(** C8, as amended.  The metadata [classify] returns is the input metadata
    with [detectedIntent] and [suggestions] written over it, both always:
    [suggestions] holds the list of suggestions when there is one and
    [undefined] otherwise.  Every other input key survives with its value,
    and with suggestions the result is the union the specification
    describes; in particular an input [{a: v}] yields [a: v] next to the two
    written keys. *)
Theorem classify_metadata_overwrites_two_keys :
  (forall ctx : PromptEvent H,
     exists r,
       fst (call (classify w ctx)) = Normal r
       /\ (forall k, k <> js "detectedIntent" -> k <> js "suggestions" ->
           res_metadata r !! k = metadata ctx !! k)
       /\ res_metadata r !! js "detectedIntent" = Some (Str (detectIntent (prompt ctx)))
       /\ res_metadata r !! js "suggestions" =
            Some match suggestionsFor (detectIntent (prompt ctx)) with
                 | [] => Undefined
                 | tips => Arr tips
                 end
       /\ (suggestionsFor (detectIntent (prompt ctx)) <> [] ->
           res_metadata r =
             spec_metadata (metadata ctx) (detectIntent (prompt ctx))
               (suggestionsFor (detectIntent (prompt ctx)))))
  /\ (forall (p : jsstring) (fl : list H) (v : H),
       exists r,
         fst (call (classify w
                      {| prompt := p; files := fl;
                         metadata := {[ js "a" := Host v ]} |})) = Normal r
         /\ res_metadata r !! js "a" = Some (Host v)
         /\ is_Some (res_metadata r !! js "detectedIntent")
         /\ is_Some (res_metadata r !! js "suggestions")).
Proof.
  split.
  - intros ctx. rewrite classify_call. eexists; split; [reflexivity|]. cbn [res_metadata].
    rewrite suggestions_value. repeat split.
    + intros k Hd Hs. rewrite !lookup_insert_ne by congruence. reflexivity.
    + apply lookup_detectedIntent.
    + rewrite lookup_insert_eq. now destruct (suggestionsFor _).
    + unfold spec_metadata. now destruct (suggestionsFor _).
  - intros p fl v. rewrite classify_call. eexists; split; [reflexivity|].
    cbn [res_metadata metadata]. split; [|split].
    + rewrite !lookup_insert_ne by (intro E; vm_compute in E; discriminate E).
      apply lookup_singleton_eq.
    + rewrite lookup_detectedIntent. eauto.
    + rewrite lookup_insert_eq. eauto.
Qed.

(** C9, as amended.  A prompt that matches none of the three patterns is
    not an error: [classify] returns, the intent is [general], and the
    [suggestions] key of the returned metadata holds [undefined]. *)
Theorem classify_no_match_is_general (ctx : PromptEvent H) :
  test re_codeReview (prompt ctx) = false ->
  test re_refactoring (prompt ctx) = false ->
  test re_testing (prompt ctx) = false ->
  exists r,
    call (classify w ctx) =
      (Normal r,
       [PromptLog (clock w) (js "general") (length (prompt ctx)) (length (files ctx))])
    /\ res_prompt r = prompt ctx
    /\ res_metadata r !! js "detectedIntent" = Some (Str (js "general"))
    /\ res_metadata r !! js "suggestions" = Some Undefined.
Proof.
  intros Hc Hr Ht. rewrite classify_call, (detectIntent_general _ Hc Hr Ht).
  eexists; split; [reflexivity|]. cbn [res_metadata res_prompt]. repeat split.
  - apply lookup_detectedIntent.
  - apply lookup_insert_eq.
Qed.

End PromptSubmit.

(** The empty prompt and [hello] match none of the patterns. *)
Lemma classify_no_match_is_general_witness :
  (exists r,
     call (OnPromptSubmit.classify Samples.bare_world
             {| OnPromptSubmit.prompt := js "hello"; OnPromptSubmit.files := @nil Z;
                OnPromptSubmit.metadata := ∅ |}) =
       (Normal r, [PromptLog (clock Samples.bare_world) (js "general") 5 0])
     /\ OnPromptSubmit.res_prompt r = js "hello"
     /\ OnPromptSubmit.res_metadata r !! js "detectedIntent"
          = Some (OnPromptSubmit.Str (js "general"))
     /\ OnPromptSubmit.res_metadata r !! js "suggestions" = Some OnPromptSubmit.Undefined)
  /\
  (exists r,
     call (OnPromptSubmit.classify Samples.bare_world
             {| OnPromptSubmit.prompt := []; OnPromptSubmit.files := @nil Z;
                OnPromptSubmit.metadata := ∅ |}) =
       (Normal r, [PromptLog (clock Samples.bare_world) (js "general") 0 0])
     /\ OnPromptSubmit.res_prompt r = []
     /\ OnPromptSubmit.res_metadata r !! js "detectedIntent"
          = Some (OnPromptSubmit.Str (js "general"))
     /\ OnPromptSubmit.res_metadata r !! js "suggestions" = Some OnPromptSubmit.Undefined).
Proof.
  split.
  - apply (classify_no_match_is_general Samples.bare_world
             {| OnPromptSubmit.prompt := js "hello"; OnPromptSubmit.files := @nil Z;
                OnPromptSubmit.metadata := ∅ |}); vm_compute; reflexivity.
  - apply (classify_no_match_is_general Samples.bare_world
             {| OnPromptSubmit.prompt := []; OnPromptSubmit.files := @nil Z;
                OnPromptSubmit.metadata := ∅ |}); vm_compute; reflexivity.
Defined.

(** For [hello], which matches no pattern, the returned metadata does
    hold the key [suggestions]: its value is [undefined]. *)
Lemma classify_hello_has_suggestions_key :
  RegExp.test OnPromptSubmit.re_codeReview (js "hello") = false
  /\ RegExp.test OnPromptSubmit.re_refactoring (js "hello") = false
  /\ RegExp.test OnPromptSubmit.re_testing (js "hello") = false
  /\ exists r,
       fst (call (OnPromptSubmit.classify Samples.bare_world
                    {| OnPromptSubmit.prompt := js "hello";
                       OnPromptSubmit.files := @nil Z;
                       OnPromptSubmit.metadata := ∅ |})) = Normal r
       /\ OnPromptSubmit.res_metadata r !! js "suggestions" = Some OnPromptSubmit.Undefined
       /\ OnPromptSubmit.res_metadata r !! js "suggestions" <> None.
Proof.
  split; [|split; [|split]]; try (vm_compute; reflexivity).
  rewrite classify_call. eexists; split; [reflexivity|].
  cbn [OnPromptSubmit.res_metadata OnPromptSubmit.prompt].
  rewrite lookup_insert_eq.
  assert (Hnone : OnPromptSubmit.suggestionsFor (OnPromptSubmit.detectIntent (js "hello")) = [])
    by (vm_compute; reflexivity).
  rewrite Hnone. split; [reflexivity|discriminate].
Qed.

(** An input [suggestions] entry does not survive a prompt that gets no
    suggestions: the union the specification describes would keep it, the
    hook overwrites it with [undefined]. *)
Lemma classify_overwrites_input_suggestions :
  OnPromptSubmit.suggestionsFor (OnPromptSubmit.detectIntent (js "hello")) = []
  /\ OnPromptSubmit.spec_metadata
       (<[ js "suggestions" := OnPromptSubmit.Host 7%Z ]> {[ js "a" := OnPromptSubmit.Host 1%Z ]})
       (OnPromptSubmit.detectIntent (js "hello"))
       (OnPromptSubmit.suggestionsFor (OnPromptSubmit.detectIntent (js "hello")))
       !! js "suggestions" = Some (OnPromptSubmit.Host 7%Z)
  /\ exists r,
       fst (call (OnPromptSubmit.classify Samples.bare_world
                    {| OnPromptSubmit.prompt := js "hello";
                       OnPromptSubmit.files := @nil Z;
                       OnPromptSubmit.metadata :=
                         <[ js "suggestions" := OnPromptSubmit.Host 7%Z ]>
                           {[ js "a" := OnPromptSubmit.Host 1%Z ]} |})) = Normal r
       /\ OnPromptSubmit.res_metadata r !! js "suggestions" = Some OnPromptSubmit.Undefined
       /\ OnPromptSubmit.res_metadata r !! js "a" = Some (OnPromptSubmit.Host 1%Z).
Proof.
  assert (Hnone : OnPromptSubmit.suggestionsFor (OnPromptSubmit.detectIntent (js "hello")) = [])
    by (vm_compute; reflexivity).
  split; [exact Hnone|split].
  - rewrite Hnone. unfold OnPromptSubmit.spec_metadata.
    rewrite lookup_insert_ne by (apply not_eq_sym, suggestions_ne_detectedIntent).
    apply lookup_insert_eq.
  - rewrite classify_call. eexists; split; [reflexivity|].
    cbn [OnPromptSubmit.res_metadata OnPromptSubmit.prompt OnPromptSubmit.metadata].
    rewrite Hnone. split; [apply lookup_insert_eq|].
    rewrite !lookup_insert_ne by (intro E; vm_compute in E; discriminate E).
    apply lookup_singleton_eq.
Qed.

(** * The language checks, entry by entry *)

Section LanguageChecks.
Import OnFileChange.
Variable w : world.

(** What [checkJavaScript] writes for a readable file: the task-comment
    notification, then the notification of a clean lint run; the
    console.log warning, then the warning of a lint run that failed with
    errors in its output.  The search for long functions adds nothing. *)
Lemma checkJavaScript_entries (p content : jsstring) :
  fs w p = File content ->
  added (checkJavaScript w p) =
    {| notifications :=
         todo_notification content (Path.basename p) ++ eslint_notification w p;
       warnings :=
         console_log_warning content (Path.basename p) ++ eslint_warning w p;
       errors := []; stderr := [] |}.
Proof.
  intros Hfile.
  assert (Hnone : count_matches [] re_error = 0) by (vm_compute; reflexivity).
  unfold todo_notification, eslint_notification, console_log_warning, eslint_warning.
  unfold added, checkJavaScript, existsSync, readFileSync, execSync, eslint_command, captured.
  rewrite Hfile. cbn [negb].
  unfold mbind at 1, M_bind at 1, mret at 1, M_ret at 1. cbv beta iota.
  destruct (0 <? count_matches content re_console_log);
    destruct (0 <? count_matches content re_todo);
    unfold mbind, M_bind, mret, M_ret, when, try_catch, throw;
    unfold push_warning, push_notification;
    cbn [notifications warnings errors stderr fresh app];
    (destruct (run_command w _) as [[m [out|]]|out]; cbn [stdout];
     [ destruct out as [|c out];
       [ change (0 <? length (@nil N)) with false; rewrite ?Hnone;
         change (0 <? 0) with false
       | change (0 <? length (c :: out)) with true;
         destruct (0 <? count_matches (c :: out) re_error) ]
     | rewrite ?Hnone; change (0 <? 0) with false | ]);
    unfold mret, M_ret, push_warning, push_notification;
    cbn [notifications warnings errors stderr app];
    rewrite ?longFunctionLoop_silent; cbn [snd notifications warnings errors stderr app];
    reflexivity.
Qed.

(** What [checkPython] writes for a readable file: the notification of a
    clean lint run; the print warning, then the warning of a lint run that
    failed with some output. *)
Lemma checkPython_entries (p content : jsstring) :
  fs w p = File content ->
  added (checkPython w p) =
    {| notifications := pylint_notification w p;
       warnings := print_warning content (Path.basename p) ++ pylint_warning w p;
       errors := []; stderr := [] |}.
Proof.
  intros Hfile.
  unfold pylint_notification, print_warning, pylint_warning.
  unfold added, checkPython, existsSync, readFileSync, execSync, pylint_command, captured.
  rewrite Hfile. cbn [negb].
  unfold mbind at 1, M_bind at 1, mret at 1, M_ret at 1. cbv beta iota.
  destruct (0 <? count_matches content re_print);
    unfold mbind, M_bind, mret, M_ret, when, try_catch, throw;
    unfold push_warning, push_notification;
    cbn [notifications warnings errors stderr fresh app];
    (destruct (run_command w _) as [[m [out|]]|out]; cbn [stdout];
     [ destruct (0 <? length out) | | ]);
    unfold mret, M_ret, push_warning, push_notification;
    cbn [snd notifications warnings errors stderr app];
    reflexivity.
Qed.

(** One turn of the loop on a readable file that has a language check:
    the entries of the check, then those of the three steps after it. *)
Lemma processFile_entries_js (f : FileChange) (content : jsstring) :
  array_includes [js ".js"; js ".jsx"; js ".ts"; js ".tsx"]
    (Path.extname (filePath f)) = true ->
  fs w (filePath f) = File content ->
  added (processFile w f) =
    {| notifications :=
         notifications (added (checkJavaScript w (filePath f)))
         ++ test_file_notification (filePath f);
       warnings :=
         warnings (added (checkJavaScript w (filePath f)))
         ++ missing_test_warning w (filePath f) ++ size_warning (filePath f) content;
       errors := []; stderr := [] |}.
Proof.
  intros Hext Hfile.
  destruct (fileChecks_fresh w f) as (N & W & _ & _ & Hrun & Hjs).
  rewrite Hfile in Hrun. destruct (Hjs Hext) as [<- <-].
  unfold added at 1, processFile, try_catch. rewrite Hrun. reflexivity.
Qed.

Lemma processFile_entries_py (f : FileChange) (content : jsstring) :
  array_includes [js ".py"] (Path.extname (filePath f)) = true ->
  fs w (filePath f) = File content ->
  added (processFile w f) =
    {| notifications :=
         notifications (added (checkPython w (filePath f)))
         ++ test_file_notification (filePath f);
       warnings :=
         warnings (added (checkPython w (filePath f)))
         ++ missing_test_warning w (filePath f) ++ size_warning (filePath f) content;
       errors := []; stderr := [] |}.
Proof.
  intros Hext Hfile. destruct f as [p ct]; cbn [filePath] in *.
  assert (Ejs : array_includes [js ".js"; js ".jsx"; js ".ts"; js ".tsx"]
                  (Path.extname p) = false).
  { destruct (array_includes [js ".js"; js ".jsx"; js ".ts"; js ".tsx"] _) eqn:Ejs;
      [|reflexivity].
    rewrite (language_checks_exclusive _ Ejs) in Hext. discriminate Hext. }
  pose proof (checkPython_fresh w p) as Hpy. rewrite Hfile in Hpy.
  destruct Hpy as (N & W & Hpy & _ & _).
  assert (Hadd : added (checkPython w p)
                 = {| notifications := N; warnings := W; errors := []; stderr := [] |})
    by (unfold added; now rewrite Hpy).
  rewrite Hadd; cbn [notifications warnings].
  assert (Hrun : fileChecks w {| filePath := p; changeType := ct |} (Path.extname p) fresh =
                 (Normal tt,
                  {| notifications := N ++ test_file_notification p;
                     warnings := W ++ missing_test_warning w p ++ size_warning p content;
                     errors := []; stderr := [] |})).
  { unfold fileChecks, test_file_notification, missing_test_warning, size_warning;
      cbn [filePath]. rewrite Ejs, Hext.
    unfold existsSync, readFileSync; rewrite Hfile.
    unfold mbind, M_bind, when, mret, M_ret; cbv beta iota; rewrite Hpy.
    tail_steps p. }
  unfold added, processFile, try_catch; cbn [filePath]. rewrite Hrun. reflexivity.
Qed.

(** One turn of the loop, whatever the file: a readable file gets the
    entries of its language check and of the three steps after it; a path
    that names nothing gets those of the two steps that do not read it; a
    file that cannot be read gets what was written before the read that
    failed, and a record of the failure. *)
Lemma processFile_entries (f : FileChange) :
  added (processFile w f) =
    match fs w (filePath f) with
    | File content =>
        {| notifications :=
             language_notifications w (filePath f) content
             ++ test_file_notification (filePath f);
           warnings :=
             language_warnings w (filePath f) content
             ++ missing_test_warning w (filePath f)
             ++ size_warning (filePath f) content;
           errors := []; stderr := [] |}
    | Absent =>
        {| notifications := test_file_notification (filePath f);
           warnings := missing_test_warning w (filePath f);
           errors := []; stderr := [] |}
    | Unreadable e =>
        {| notifications :=
             if has_language_check (Path.extname (filePath f)) then []
             else test_file_notification (filePath f);
           warnings :=
             if has_language_check (Path.extname (filePath f)) then []
             else missing_test_warning w (filePath f);
           errors := [];
           stderr := [ErrorProcessing (filePath f) (message e)] |}
    end.
Proof.
  destruct (fs w (filePath f)) as [|content|e] eqn:Hfile.
  - destruct (processFile_added w f) as (N & W & _ & _ & -> & _). now rewrite Hfile.
  - unfold language_notifications, language_warnings.
    destruct (array_includes [js ".js"; js ".jsx"; js ".ts"; js ".tsx"] _) eqn:Ejs.
    { rewrite (processFile_entries_js _ _ Ejs Hfile), (checkJavaScript_entries _ _ Hfile).
      reflexivity. }
    destruct (array_includes [js ".py"] _) eqn:Epy.
    { rewrite (processFile_entries_py _ _ Epy Hfile), (checkPython_entries _ _ Hfile).
      reflexivity. }
    assert (Hnone : fileChecks w f (Path.extname (filePath f)) fresh =
                    (Normal tt,
                     {| notifications := test_file_notification (filePath f);
                        warnings := missing_test_warning w (filePath f)
                                    ++ size_warning (filePath f) content;
                        errors := []; stderr := [] |})).
    { destruct f as [p ct]; cbn [filePath] in *.
      unfold fileChecks, test_file_notification, missing_test_warning, size_warning;
        cbn [filePath]. rewrite Ejs, Epy.
      unfold existsSync, readFileSync; rewrite Hfile.
      unfold mbind, M_bind, when, mret, M_ret; cbv beta iota.
      tail_steps p. }
    unfold added, processFile, try_catch. rewrite Hnone. reflexivity.
  - destruct (processFile_added w f) as (N & W & _ & _ & -> & _). now rewrite Hfile.
Qed.

(** A changed JavaScript or TypeScript file that can be read gets, in
    this order: the task-comment notification, the notification of a clean
    lint run and the test-file notification; the console.log warning, the
    warning of a lint run that failed with errors in its output, the
    missing-test warning and the size warning.  Nothing else is returned,
    and an empty list is returned as [undefined]. *)
Theorem javascript_file_result (f : FileChange) (op content : jsstring) :
  array_includes [js ".js"; js ".jsx"; js ".ts"; js ".tsx"]
    (Path.extname (filePath f)) = true ->
  fs w (filePath f) = File content ->
  exists log,
    call (advise w {| files := [f]; operation := op |}) =
      (Normal
         {| res_notifications :=
              nonempty_or_undefined
                (todo_notification content (Path.basename (filePath f))
                 ++ eslint_notification w (filePath f)
                 ++ test_file_notification (filePath f));
            res_warnings :=
              nonempty_or_undefined
                (console_log_warning content (Path.basename (filePath f))
                 ++ eslint_warning w (filePath f)
                 ++ missing_test_warning w (filePath f)
                 ++ size_warning (filePath f) content);
            res_errors := None |},
       log).
Proof.
  intros Hext Hfile.
  destruct (advise_one_file w f op) as [log ->]. exists log.
  rewrite (processFile_entries_js _ _ Hext Hfile).
  rewrite (checkJavaScript_entries _ _ Hfile).
  cbn [notifications warnings errors nonempty_or_undefined].
  now rewrite <- !app_assoc.
Qed.

(** A changed Python file that can be read gets, in this order: the
    notification of a clean lint run and the test-file notification; the
    print warning, the warning of a lint run that failed with some output,
    the missing-test warning and the size warning. *)
Theorem python_file_result (f : FileChange) (op content : jsstring) :
  array_includes [js ".py"] (Path.extname (filePath f)) = true ->
  fs w (filePath f) = File content ->
  exists log,
    call (advise w {| files := [f]; operation := op |}) =
      (Normal
         {| res_notifications :=
              nonempty_or_undefined
                (pylint_notification w (filePath f)
                 ++ test_file_notification (filePath f));
            res_warnings :=
              nonempty_or_undefined
                (print_warning content (Path.basename (filePath f))
                 ++ pylint_warning w (filePath f)
                 ++ missing_test_warning w (filePath f)
                 ++ size_warning (filePath f) content);
            res_errors := None |},
       log).
Proof.
  intros Hext Hfile.
  destruct (advise_one_file w f op) as [log ->]. exists log.
  rewrite (processFile_entries_py _ _ Hext Hfile).
  rewrite (checkPython_entries _ _ Hfile).
  cbn [notifications warnings errors nonempty_or_undefined].
  now rewrite <- !app_assoc.
Qed.

End LanguageChecks.

(** [src/view.jsx] has two task comments and one [console.log(]; its lint
    run fails and prints [error] twice; no test file is next to it. *)
Lemma javascript_file_result_witness :
  exists log,
    call (OnFileChange.advise Samples.view_world (Samples.change (js "src/view.jsx"))) =
      (Normal
         {| OnFileChange.res_notifications :=
              Some [js "📝 Found 2 TODO/FIXME comment(s) in view.jsx"];
            OnFileChange.res_warnings :=
              Some [js "⚠️  Found 1 console.log statement(s) in view.jsx";
                    js "⚠️  ESLint found 2 issue(s) in view.jsx";
                    js "⚠️  No test file found for view.jsx. Consider creating view.test.jsx"];
            OnFileChange.res_errors := None |},
       log).
Proof.
  destruct (javascript_file_result Samples.view_world
              {| OnFileChange.filePath := js "src/view.jsx";
                 OnFileChange.changeType := OnFileChange.modified |}
              (js "edit") Samples.view_source) as [log Hlog];
    [vm_compute; reflexivity|vm_compute; reflexivity|].
  exists log. unfold Samples.change. rewrite Hlog. vm_compute. reflexivity.
Defined.

(** [tools/build.py] has two prints and passes its lint run. *)
Lemma python_file_result_witness :
  exists log,
    call (OnFileChange.advise Samples.script_world (Samples.change (js "tools/build.py"))) =
      (Normal
         {| OnFileChange.res_notifications := Some [js "✅ Pylint: build.py passed"];
            OnFileChange.res_warnings :=
              Some [js "Found 2 print statement(s) in build.py";
                    js "⚠️  No test file found for build.py. Consider creating build.test.py"];
            OnFileChange.res_errors := None |},
       log).
Proof.
  destruct (python_file_result Samples.script_world
              {| OnFileChange.filePath := js "tools/build.py";
                 OnFileChange.changeType := OnFileChange.modified |}
              (js "edit") Samples.script_source) as [log Hlog];
    [vm_compute; reflexivity|vm_compute; reflexivity|].
  exists log. unfold Samples.change. rewrite Hlog. vm_compute. reflexivity.
Defined.

(** * Batches of changed files *)

(** Two messages are told apart by their first units. *)
Ltac told_apart_by_prefix n :=
  let E := fresh "E" in
  intros E; apply (f_equal (firstn n)) in E; vm_compute in E; discriminate E.

Section Batches.
Import OnFileChange.
Variable w : world.

Lemma file_notification_is_not_long_function (b base m : jsstring) :
  file_notification b m -> m <> msg_long_function base.
Proof. intros [[n| |]| ->]; told_apart_by_prefix 1. Qed.

Lemma file_warning_is_not_long_function (b base m : jsstring) :
  file_warning b m -> m <> msg_long_function base.
Proof. intros [[n|n|n|]|[[t ->]|[n ->]]]; told_apart_by_prefix 2. Qed.

(** The entries of one turn of the loop are messages about its file. *)
Lemma processFile_catalogue (f : FileChange) :
  Forall (file_notification (Path.basename (filePath f)))
    (notifications (added (processFile w f)))
  /\ Forall (file_warning (Path.basename (filePath f)))
       (warnings (added (processFile w f))).
Proof.
  destruct (processFile_added w f) as (N & W & HN & HW & -> & _).
  assert (HN' : Forall (file_notification (Path.basename (filePath f))) N).
  { eapply List.Forall_impl; [|exact HN]. intros m Hm. now left. }
  assert (HW' : Forall (file_warning (Path.basename (filePath f))) W).
  { eapply List.Forall_impl; [|exact HW]. intros m Hm. now left. }
  assert (HT : Forall (file_notification (Path.basename (filePath f)))
                 (test_file_notification (filePath f))).
  { unfold test_file_notification.
    destruct (isTestFile _); constructor; [now right|constructor]. }
  assert (HM : Forall (file_warning (Path.basename (filePath f)))
                 (missing_test_warning w (filePath f))).
  { unfold missing_test_warning.
    destruct (_ && _); constructor; [right; left; now eexists|constructor]. }
  assert (HS : forall content,
             Forall (file_warning (Path.basename (filePath f)))
               (size_warning (filePath f) content)).
  { intros content. unfold size_warning.
    destruct (600 <? _); constructor; [right; right; now eexists|constructor]. }
  destruct (fs w (filePath f)) as [|content|e]; cbn [notifications warnings].
  - now split.
  - split; [now apply Forall_app|]. apply Forall_app; split; [exact HW'|].
    apply Forall_app; split; [exact HM|apply HS].
  - destruct (has_language_check _); split; try constructor; assumption.
Qed.

Lemma forEachFile_catalogue (l : list FileChange) :
  Forall (fun m => exists f, In f l /\ file_notification (Path.basename (filePath f)) m)
    (notifications (added (forEachFile w l)))
  /\ Forall (fun m => exists f, In f l /\ file_warning (Path.basename (filePath f)) m)
       (warnings (added (forEachFile w l))).
Proof.
  induction l as [|f l [IHn IHw]].
  - split; constructor.
  - rewrite added_forEachFile_cons. cbn [extend notifications warnings].
    destruct (processFile_catalogue f) as [Hn Hw].
    split; apply Forall_app; split.
    + eapply List.Forall_impl; [|exact Hn]. intros m Hm. exists f. split; [now left|exact Hm].
    + eapply List.Forall_impl; [|exact IHn]. intros m (g & Hg & Hm). exists g.
      split; [now right|exact Hm].
    + eapply List.Forall_impl; [|exact Hw]. intros m Hm. exists f. split; [now left|exact Hm].
    + eapply List.Forall_impl; [|exact IHw]. intros m (g & Hg & Hm). exists g.
      split; [now right|exact Hm].
Qed.

(** Whatever the batch, every message returned is one of the known
    messages about a file of the batch: a notification is the
    task-comment, lint-passed or test-file notification of one of the
    files, a warning its console.log, lint, print, missing-test or size
    warning. *)
Theorem advise_messages_are_about_files (ev : ChangeEvent) :
  exists r log,
    call (advise w ev) = (Normal r, log)
    /\ Forall (fun m => exists f, In f (files ev)
                 /\ file_notification (Path.basename (filePath f)) m)
         (listing (res_notifications r))
    /\ Forall (fun m => exists f, In f (files ev)
                 /\ file_warning (Path.basename (filePath f)) m)
         (listing (res_warnings r)).
Proof.
  rewrite advise_call. eexists _, _. split; [reflexivity|].
  cbn [res_notifications res_warnings]. rewrite !listing_nonempty_or_undefined.
  apply forEachFile_catalogue.
Qed.

(** The warning about a long function is never returned, whatever the
    files hold and whatever base name it would carry. *)
Theorem advise_never_reports_long_function (ev : ChangeEvent) :
  exists r log,
    call (advise w ev) = (Normal r, log)
    /\ forall base,
         ~ In (msg_long_function base) (listing (res_notifications r))
         /\ ~ In (msg_long_function base) (listing (res_warnings r)).
Proof.
  rewrite advise_call. eexists _, _. split; [reflexivity|]. intros base.
  cbn [res_notifications res_warnings]. rewrite !listing_nonempty_or_undefined.
  destruct (forEachFile_catalogue (files ev)) as [Hn Hw].
  rewrite List.Forall_forall in Hn, Hw.
  split; intros Hin.
  - destruct (Hn _ Hin) as (f & _ & Hm).
    now apply (file_notification_is_not_long_function _ base _ Hm).
  - destruct (Hw _ Hin) as (f & _ & Hm).
    now apply (file_warning_is_not_long_function _ base _ Hm).
Qed.

Lemma stderr_forEachFile (l : list FileChange) :
  stderr (added (forEachFile w l)) = flat_map (read_failure w) l.
Proof.
  induction l as [|f l IH]; [reflexivity|].
  rewrite added_forEachFile_cons. cbn [extend stderr flat_map]. rewrite IH. f_equal.
  rewrite processFile_entries. unfold read_failure.
  now destruct (fs w (filePath f)).
Qed.

Lemma errors_forEachFile (l : list FileChange) :
  errors (added (forEachFile w l)) = [].
Proof.
  induction l as [|f l IH]; [reflexivity|].
  rewrite added_forEachFile_cons. cbn [extend errors]. rewrite IH, processFile_entries.
  now destruct (fs w (filePath f)).
Qed.

(** The diagnostic stream of a call: one record for each changed file that
    exists and cannot be read, in the order of the batch, then one summary
    record with the time, the operation, the number of files, and the
    lengths of the two lists returned; its count of errors is always 0. *)
Theorem advise_diagnostics (ev : ChangeEvent) :
  exists r,
    call (advise w ev) =
      (Normal r,
       flat_map (read_failure w) (files ev)
       ++ [ChangeLog (clock w) (operation ev) (length (files ev))
             (length (listing (res_notifications r)))
             (length (listing (res_warnings r))) 0]).
Proof.
  rewrite advise_call.
  match goal with |- exists r, (Normal ?R, _) = _ => exists R end.
  cbn [res_notifications res_warnings].
  rewrite !listing_nonempty_or_undefined, stderr_forEachFile, errors_forEachFile.
  reflexivity.
Qed.

End Batches.

(** * What a call depends on *)

Section TwoWorlds.
Import OnFileChange.
Variables w w' : world.
Hypothesis same_files : forall p, fs w p = fs w' p.

Lemma missing_test_warning_same_files (p : jsstring) :
  missing_test_warning w p = missing_test_warning w' p.
Proof. unfold missing_test_warning, existsSync. now rewrite same_files. Qed.

Lemma processFile_same_world (f : FileChange) :
  (forall c, lint_command w f = Some c -> run_command w c = run_command w' c) ->
  added (processFile w f) = added (processFile w' f).
Proof.
  intros Hcmd. rewrite !processFile_entries, <- same_files, <- missing_test_warning_same_files.
  unfold lint_command, lintable, has_language_check in Hcmd.
  destruct (fs w (filePath f)) as [|content|e]; try reflexivity.
  unfold language_notifications, language_warnings.
  destruct (array_includes [js ".js"; js ".jsx"; js ".ts"; js ".tsx"] _).
  { unfold eslint_notification, eslint_warning. now rewrite (Hcmd _ eq_refl). }
  destruct (array_includes [js ".py"] _); [|reflexivity].
  unfold pylint_notification, pylint_warning. now rewrite (Hcmd _ eq_refl).
Qed.

Lemma forEachFile_same_world (l : list FileChange) :
  (forall f c, In f l -> lint_command w f = Some c ->
               run_command w c = run_command w' c) ->
  added (forEachFile w l) = added (forEachFile w' l).
Proof.
  induction l as [|f l IH]; intros Hcmd; [reflexivity|].
  rewrite !added_forEachFile_cons, IH, (processFile_same_world f); [reflexivity| |].
  - intros c. apply Hcmd. now left.
  - intros g c Hg. apply Hcmd. now right.
Qed.

(** The result of a call depends on the file system and on the outcome
    of one lint command for each changed file that has a language check
    and can be read, and on nothing else: not on the time, not on what any
    other command would do.  For a deleted file, a file that cannot be read
    and a file of another language no command matters. *)
Theorem advise_depends_on_lint_of_lintable_files (ev : ChangeEvent) :
  (forall f c, In f (files ev) -> lint_command w f = Some c ->
               run_command w c = run_command w' c) ->
  fst (call (advise w ev)) = fst (call (advise w' ev)).
Proof.
  intros Hcmd. rewrite !advise_call. cbn [fst].
  now rewrite (forEachFile_same_world _ Hcmd).
Qed.

End TwoWorlds.

(** The result for [src/view.jsx] is the same at another time and with
    other commands succeeding, as long as its lint run gives the same. *)
Lemma advise_depends_on_lint_of_lintable_files_witness :
  fst (call (OnFileChange.advise Samples.view_world (Samples.change (js "src/view.jsx"))))
  = fst (call (OnFileChange.advise Samples.view_world_later
                 (Samples.change (js "src/view.jsx")))).
Proof.
  apply (advise_depends_on_lint_of_lintable_files Samples.view_world
           Samples.view_world_later).
  - intros p. exact (eq_refl (Samples.view_disk p)).
  - intros f c [<-|[]] Hc. vm_compute in Hc. injection Hc as <-.
    vm_compute. reflexivity.
Defined.

(** * The size of a file *)

Section FileSize.
Import OnFileChange.
Variable w : world.

Lemma language_warnings_shapes (p content : jsstring) :
  Forall (check_warning (Path.basename p)) (language_warnings w p content).
Proof.
  unfold language_warnings, console_log_warning, eslint_warning, print_warning,
    pylint_warning.
  destruct (array_includes [js ".js"; js ".jsx"; js ".ts"; js ".tsx"] _);
    [|destruct (array_includes [js ".py"] _)];
    repeat match goal with
           | |- context [if ?b then _ else _] => destruct b
           | |- context [match run_command ?w ?c with _ => _ end] =>
               destruct (run_command w c)
           end;
    cbn [app]; check_shapes.
Qed.

(** The size warning counts line feeds: a readable file gets it exactly
    when it holds at least 600 of them, and the number of lines it reports
    is one more than their number.  A file of 600 lines that ends in a
    line feed is thus reported as 601 lines long. *)
Theorem size_warning_counts_line_feeds (f : FileChange) (op content : jsstring) :
  fs w (filePath f) = File content ->
  exists r log,
    call (advise w {| files := [f]; operation := op |}) = (Normal r, log)
    /\ forall lines,
         In (msg_size (Path.basename (filePath f)) lines) (listing (res_warnings r))
         <-> lines = S (count_unit newline content)
             /\ 600 <= count_unit newline content.
Proof.
  intros Hfile.
  destruct (advise_one_file w f op) as [log ->]. eexists _, _. split; [reflexivity|].
  intros lines. cbn [res_warnings]. rewrite listing_nonempty_or_undefined.
  rewrite processFile_entries, Hfile. cbn [warnings].
  pose proof (language_warnings_shapes (filePath f) content) as HL.
  rewrite List.Forall_forall in HL.
  unfold size_warning, missing_test_warning. rewrite split_length.
  split.
  - intros [Hin|[Hin|Hin]%in_app_or]%in_app_or.
    + now destruct (check_warning_is_not_size _ _ lines (HL _ Hin)).
    + destruct (_ && _); [|destruct Hin]. destruct Hin as [E|[]].
      symmetry in E. now destruct (size_is_not_no_test_file _ _ _ E).
    + destruct (600 <? _) eqn:Hlt; [|destruct Hin]. destruct Hin as [E|[]].
      apply msg_size_inj in E. apply Nat.ltb_lt in Hlt. lia.
  - intros [-> Hle]. apply in_or_app; right. apply in_or_app; right.
    assert (Hlt : (600 <? S (count_unit newline content)) = true) by (apply Nat.ltb_lt; lia).
    rewrite Hlt. now left.
Qed.

End FileSize.

(** [notes.txt] holds 600 line feeds and nothing else: it is reported as
    601 lines long. *)
Lemma size_warning_counts_line_feeds_witness :
  exists r log,
    call (OnFileChange.advise Samples.long_world (Samples.change (js "notes.txt")))
      = (Normal r, log)
    /\ forall lines,
         In (OnFileChange.msg_size (js "notes.txt") lines)
           (OnFileChange.listing (OnFileChange.res_warnings r))
         <-> lines = 601 /\ 600 <= 600.
Proof.
  assert (Hbase : Path.basename (js "notes.txt") = js "notes.txt")
    by (vm_compute; reflexivity).
  assert (Hcount : count_unit newline (List.repeat newline 600) = 600)
    by (vm_compute; reflexivity).
  pose proof (size_warning_counts_line_feeds Samples.long_world
                {| OnFileChange.filePath := js "notes.txt";
                   OnFileChange.changeType := OnFileChange.modified |}
                (js "edit") (List.repeat newline 600)) as Hw.
  cbn [OnFileChange.filePath] in Hw. rewrite Hbase, Hcount in Hw.
  apply Hw. vm_compute; reflexivity.
Defined.

(** * Paths and the suggested test file *)

Section PathFacts.
Import Path.

Lemma take_drop_while (p : N -> bool) (s : jsstring) :
  take_while p s ++ drop_while p s = s.
Proof.
  induction s as [|c s IH]; [reflexivity|]. cbn [take_while drop_while].
  destruct (p c); [cbn [app]; now rewrite IH|reflexivity].
Qed.

Lemma take_while_all (p : N -> bool) (s : jsstring) :
  forallb p (take_while p s) = true.
Proof.
  induction s as [|c s IH]; [reflexivity|]. cbn [take_while].
  destruct (p c) eqn:Hc; [cbn [forallb]; now rewrite Hc|reflexivity].
Qed.

Lemma drop_while_head (p : N -> bool) (s r : jsstring) (c : N) :
  drop_while p s = c :: r -> p c = false.
Proof.
  induction s as [|d s IH]; [discriminate|]. cbn [drop_while].
  destruct (p d) eqn:Hd; [exact IH|]. intros E. injection E as -> _. exact Hd.
Qed.

Lemma take_while_stop (p : N -> bool) (a r : jsstring) :
  forallb p a = true ->
  match r with
  | [] => True
  | c :: _ => p c = false
  end ->
  take_while p (a ++ r) = a.
Proof.
  intros Ha Hr. induction a as [|d a IH]; cbn [app take_while].
  - destruct r as [|c r]; [reflexivity|]. cbn [take_while]. now rewrite Hr.
  - cbn [forallb] in Ha. apply andb_true_iff in Ha as [-> Ha]. now rewrite IH.
Qed.

Lemma forallb_rev (p : N -> bool) (s : jsstring) :
  forallb p (rev s) = forallb p s.
Proof.
  induction s as [|c s IH]; [reflexivity|]. cbn [rev forallb].
  rewrite forallb_app, IH. cbn [forallb]. rewrite andb_true_r. apply andb_comm.
Qed.

Lemma take_while_shorter (p : N -> bool) (s : jsstring) :
  length (take_while p s) <= length s.
Proof.
  induction s as [|c s IH]; [reflexivity|]. cbn [take_while].
  destruct (p c); cbn [length]; lia.
Qed.

Lemma drop_while_shorter (p : N -> bool) (s : jsstring) :
  length (drop_while p s) <= length s.
Proof.
  induction s as [|c s IH]; [reflexivity|]. cbn [drop_while].
  destruct (p c); cbn [length]; lia.
Qed.

Lemma firstn_length_app (a b : jsstring) : firstn (length a) (a ++ b) = a.
Proof. induction a as [|c a IH]; [reflexivity|]. cbn [length app firstn]. now rewrite IH. Qed.

(** The last component of a path holds no slash, and is no longer than
    the path. *)
Lemma last_component_no_slash (p : jsstring) :
  forallb not_slash (last_component p) = true.
Proof. unfold last_component. rewrite forallb_rev. apply take_while_all. Qed.

Lemma last_component_shorter (p : jsstring) :
  length (last_component p) <= length p.
Proof.
  unfold last_component. rewrite length_rev.
  etransitivity; [apply take_while_shorter|].
  etransitivity; [apply drop_while_shorter|]. now rewrite length_rev.
Qed.

(** An extension is the part of the last component from its last dot on,
    and something stands before that dot. *)
Lemma extname_shape (p : jsstring) :
  extname p = []
  \/ exists stem e,
       last_component p = stem ++ dot :: e /\ stem <> []
       /\ forallb not_dot e = true /\ extname p = dot :: e.
Proof.
  unfold extname.
  pose proof (take_drop_while not_dot (rev (last_component p))) as Hsplit.
  pose proof (take_while_all not_dot (rev (last_component p))) as Hafter.
  destruct (drop_while not_dot (rev (last_component p))) as [|d before] eqn:Hdrop;
    [now left|].
  apply drop_while_head in Hdrop. unfold not_dot in Hdrop.
  apply negb_false_iff, N.eqb_eq in Hdrop. subst d.
  destruct before as [|b0 before]; [now left|].
  destruct (jsstring_eqb _ _); [now left|]. right.
  exists (rev (b0 :: before)), (rev (take_while not_dot (rev (last_component p)))).
  split; [|split; [|split]].
  - rewrite <- (rev_involutive (last_component p)) at 1. rewrite <- Hsplit at 1.
    rewrite rev_app_distr. cbn [rev]. now rewrite <- !app_assoc.
  - cbn [rev]. intros E. now apply app_eq_nil in E as [_ E].
  - now rewrite forallb_rev.
  - reflexivity.
Qed.

(** The base name of a path is its name without the extension, followed
    by the extension. *)
Lemma basename_stem_extname (p : jsstring) :
  basename p = basename_ext p (extname p) ++ extname p.
Proof.
  destruct (extname_shape p) as [->|(stem & e & Hlast & Hstem & _ & ->)].
  - cbn [basename_ext]. now rewrite app_nil_r.
  - pose proof (last_component_shorter p) as Hlen. rewrite Hlast in Hlen.
    rewrite length_app in Hlen. cbn [length] in Hlen.
    unfold basename_ext, basename. rewrite Hlast.
    destruct (length p <? length (dot :: e)) eqn:Hshort.
    { apply Nat.ltb_lt in Hshort. cbn [length] in Hshort.
      destruct stem; [congruence|cbn [length] in Hlen; lia]. }
    destruct (jsstring_eqb_spec (dot :: e) p) as [<-|_].
    { cbn [length] in Hlen. destruct stem; [congruence|cbn [length] in Hlen; lia]. }
    assert (Hends : startsWith (rev (stem ++ dot :: e)) (rev (dot :: e)) = true)
      by (rewrite rev_app_distr; apply startsWith_app).
    assert (Hlonger : (length (dot :: e) <? length (stem ++ dot :: e)) = true).
    { apply Nat.ltb_lt. rewrite length_app.
      destruct stem; [congruence|cbn [length]; lia]. }
    destruct (stem ++ dot :: e) as [|b0 b] eqn:Hb; [now destruct stem|].
    rewrite Hends, Hlonger, <- Hb.
    replace (length (stem ++ dot :: e) - length (dot :: e)) with (length stem)
      by (rewrite length_app; lia).
    now rewrite firstn_length_app.
Qed.

Lemma not_slash_count (s : jsstring) :
  forallb not_slash s = true -> count_unit slash s = 0.
Proof.
  intros Hs. apply count_unit_absent. revert Hs. apply forallb_weaken.
  intros c. unfold not_slash. now rewrite N.eqb_sym.
Qed.

Lemma split_before_last (sep : N) (d name : jsstring) :
  count_unit sep name = 0 ->
  exists seg segs, split sep (d ++ sep :: name) = (seg :: segs) ++ [name].
Proof.
  intros Hname. induction d as [|c d (seg & segs & IH)]; cbn [app split].
  - rewrite N.eqb_refl, (split_no_separator _ _ Hname). now exists [], [].
  - destruct (c =? sep)%N.
    + exists [], (seg :: segs). now rewrite IH.
    + rewrite IH. cbn [app]. now exists (c :: seg), segs.
Qed.

Section LastSegment.
Variable name : jsstring.
Hypothesis name_nonempty : name <> [].
Hypothesis name_not_dot : name <> [dot].
Hypothesis name_not_dots : name <> [dot; dot].
Hypothesis name_no_slash : forallb not_slash name = true.

Lemma normalize_segments_last (allowAboveRoot : bool) (segs acc : list jsstring) :
  exists kept,
    normalize_segments allowAboveRoot (segs ++ [name]) acc = kept ++ [name].
Proof.
  revert acc. induction segs as [|seg segs IH]; intros acc; cbn [app normalize_segments].
  - destruct (jsstring_eqb_spec name []) as [E|_]; [congruence|].
    destruct (jsstring_eqb_spec name [dot]) as [E|_]; [congruence|].
    destruct (jsstring_eqb_spec name [dot; dot]) as [E|_]; [congruence|].
    cbn [orb rev]. now exists (rev acc).
  - destruct (_ || _); [apply IH|].
    destruct (jsstring_eqb seg [dot; dot]); [|apply IH].
    destruct acc as [|top acc]; [apply IH|].
    destruct (jsstring_eqb top [dot; dot]); apply IH.
Qed.

Lemma join_last (kept : list jsstring) :
  exists pre,
    JsString.join [slash] (kept ++ [name]) = pre ++ name
    /\ (pre = [] \/ exists r, pre = r ++ [slash]).
Proof.
  induction kept as [|x kept (pre & IH & Hpre)]; [exists []; now split; [|left]|].
  cbn [app JsString.join]. rewrite IH.
  destruct (kept ++ [name]) as [|y ys] eqn:E; [now destruct kept|].
  exists (x ++ [slash] ++ pre). split; [now rewrite <- !app_assoc|]. right.
  destruct Hpre as [->|[r ->]]; [exists x; now rewrite app_nil_r|].
  exists (x ++ [slash] ++ r). now rewrite <- !app_assoc.
Qed.

Lemma last_unit_not_slash (q : jsstring) :
  match rev (q ++ name) with
  | c :: _ => is_slash c
  | [] => false
  end = false.
Proof.
  rewrite rev_app_distr. pose proof name_no_slash as Hs. rewrite <- forallb_rev in Hs.
  destruct (rev name) as [|c t] eqn:E.
  - apply (f_equal (@rev N)) in E. rewrite rev_involutive in E. now destruct name_nonempty.
  - cbn [app]. cbn [forallb] in Hs. apply andb_true_iff in Hs as [Hc _].
    unfold not_slash in Hc. now apply negb_true_iff in Hc.
Qed.

Lemma last_component_suffix (pre : jsstring) :
  pre = [] \/ (exists r, pre = r ++ [slash]) ->
  last_component (pre ++ name) = name.
Proof.
  intros Hpre. unfold last_component. rewrite rev_app_distr.
  pose proof name_no_slash as Hs. rewrite <- forallb_rev in Hs.
  destruct (rev name) as [|c t] eqn:E.
  { apply (f_equal (@rev N)) in E. rewrite rev_involutive in E. now destruct name_nonempty. }
  assert (Hc : is_slash c = false).
  { cbn [forallb] in Hs. apply andb_true_iff in Hs as [Hc _].
    unfold not_slash in Hc. now apply negb_true_iff in Hc. }
  cbn [app drop_while]. rewrite Hc.
  change (c :: t ++ rev pre) with ((c :: t) ++ rev pre).
  rewrite take_while_stop; [rewrite <- E; apply rev_involutive|exact Hs|].
  destruct Hpre as [->|[r ->]]; [exact I|].
  rewrite rev_app_distr. cbn [rev app]. unfold not_slash. now rewrite N.eqb_refl.
Qed.

(** Normalizing a path that ends in [name] after a slash, or is [name],
    keeps [name] as its last component. *)
Lemma basename_normalize_last (q : jsstring) :
  q = [] \/ (exists d, q = d ++ [slash]) ->
  basename (normalize (q ++ name)) = name.
Proof.
  intros Hq.
  assert (Hsegs : exists segs, split slash (q ++ name) = segs ++ [name]).
  { destruct Hq as [->|[d ->]].
    - exists []. apply split_no_separator, not_slash_count, name_no_slash.
    - rewrite <- app_assoc. cbn [app].
      destruct (split_before_last slash d name (not_slash_count _ name_no_slash))
        as (seg & segs & E).
      now exists (seg :: segs). }
  destruct Hsegs as [segs Hsegs].
  pose proof (last_unit_not_slash q) as Htrail.
  unfold normalize, basename.
  destruct (q ++ name) as [|c0 rest] eqn:Hp.
  { apply app_eq_nil in Hp as [_ Hp]. now destruct name_nonempty. }
  rewrite Htrail, Hsegs.
  destruct (normalize_segments_last (negb (is_slash c0)) segs []) as [kept ->].
  destruct (join_last kept) as (pre & -> & Hpre).
  destruct (pre ++ name) as [|b0 body] eqn:Hbody.
  { apply app_eq_nil in Hbody as [_ Hbody]. now destruct name_nonempty. }
  rewrite <- Hbody.
  destruct (is_slash c0).
  - change (slash :: pre ++ name) with ((slash :: pre) ++ name).
    apply last_component_suffix. right.
    destruct Hpre as [->|[r ->]]; [now exists []|now exists (slash :: r)].
  - now apply last_component_suffix.
Qed.

(** [path.join(dir, name)] names [name]. *)
Lemma basename_join_last (dir : jsstring) :
  basename (Path.join [dir; name]) = name.
Proof.
  unfold Path.join. cbn [List.filter].
  destruct (jsstring_eqb_spec name []) as [E|_]; [now destruct name_nonempty|].
  destruct (jsstring_eqb_spec dir []) as [->|_]; cbn [negb JsString.join].
  - apply (basename_normalize_last []). now left.
  - rewrite app_assoc. apply basename_normalize_last. right. now exists dir.
Qed.

End LastSegment.

End PathFacts.

Section SuggestedTestFile.
Import OnFileChange.

Lemma includes_prefix (p c : jsstring) : includes (p ++ c) p = true.
Proof.
  destruct (p ++ c) as [|x s] eqn:E.
  - apply app_eq_nil in E as [-> _]. reflexivity.
  - rewrite includes_cons, <- E, startsWith_app. reflexivity.
Qed.

Lemma includes_skip (a b p : jsstring) :
  includes b p = true -> includes (a ++ b) p = true.
Proof.
  intros Hb. induction a as [|x a IH]; [exact Hb|].
  cbn [app]. rewrite includes_cons, IH. apply orb_true_r.
Qed.

(** The name of the suggested test file is well formed: it is not empty,
    not [.] or [..], and holds no slash. *)
Lemma test_name_well_formed (p : jsstring) :
  let name := Path.basename_ext p (Path.extname p) ++ js ".test" ++ Path.extname p in
  name <> [] /\ name <> [dot] /\ name <> [dot; dot]
  /\ forallb Path.not_slash name = true.
Proof.
  intros name.
  assert (Hlen : 5 <= length name).
  { unfold name. rewrite !length_app.
    assert (Ht : length (js ".test") = 5) by (vm_compute; reflexivity). lia. }
  pose proof (last_component_no_slash p) as Hs.
  change (Path.last_component p) with (Path.basename p) in Hs.
  rewrite basename_stem_extname, forallb_app in Hs. apply andb_true_iff in Hs as [Hstem Hext].
  assert (Ht : forallb Path.not_slash (js ".test") = true) by (vm_compute; reflexivity).
  repeat split.
  - intros E. rewrite E in Hlen. cbn [length] in Hlen. lia.
  - intros E. rewrite E in Hlen. cbn [length] in Hlen. lia.
  - intros E. rewrite E in Hlen. cbn [length] in Hlen. lia.
  - unfold name. now rewrite !forallb_app, Hstem, Ht, Hext.
Qed.

(** The test file suggested for a path has the name of the path with
    [.test] put before its extension, whatever the directory: for
    [src/calc.js], whose name is [calc] followed by [.js], it is named
    [calc.test.js]. *)
Theorem getTestFilePath_names_test_file (p : jsstring) :
  Path.basename p = Path.basename_ext p (Path.extname p) ++ Path.extname p
  /\ Path.basename (getTestFilePath p) =
       Path.basename_ext p (Path.extname p) ++ js ".test" ++ Path.extname p.
Proof.
  split; [apply basename_stem_extname|].
  destruct (test_name_well_formed p) as (H0 & H1 & H2 & Hs).
  unfold getTestFilePath, testFilePatterns. cbn [hd].
  now apply basename_join_last.
Qed.

(** The test file suggested for a path with an extension is recognised
    as a test file, and so is not itself a source file that lacks its
    tests. *)
Theorem suggested_test_file_is_test_file (p : jsstring) :
  Path.extname p <> [] ->
  isTestFile (getTestFilePath p) = true
  /\ isSourceFile (getTestFilePath p) = false.
Proof.
  intros Hext.
  assert (Htest : isTestFile (getTestFilePath p) = true).
  { destruct (test_name_well_formed p) as (H0 & H1 & H2 & Hs).
    assert (Hname : Path.basename (getTestFilePath p) =
                    Path.basename_ext p (Path.extname p) ++ js ".test" ++ Path.extname p).
    { unfold getTestFilePath, testFilePatterns. cbn [hd]. now apply basename_join_last. }
    destruct (extname_shape p) as [E|(stem & e & _ & _ & _ & E)]; [congruence|].
    unfold isTestFile. rewrite Hname, E. unfold toLowerCase. rewrite !map_app.
    cbn [map].
    assert (Hlit : map lower_unit (js ".test") ++ lower_unit dot :: map lower_unit e
                   = js ".test." ++ map lower_unit e) by (vm_compute; reflexivity).
    rewrite Hlit, (includes_skip _ _ _ (includes_prefix _ _)). reflexivity. }
  split; [exact Htest|]. unfold isSourceFile. rewrite Htest. apply andb_false_r.
Qed.

End SuggestedTestFile.

(** [src/calc.js] has the extension [.js]. *)
Lemma suggested_test_file_is_test_file_witness :
  OnFileChange.isTestFile (OnFileChange.getTestFilePath (js "src/calc.js")) = true
  /\ OnFileChange.isSourceFile (OnFileChange.getTestFilePath (js "src/calc.js")) = false.
Proof.
  apply suggested_test_file_is_test_file. vm_compute. discriminate.
Defined.

(** * The patterns of the prompt classifier as searches for words *)

Section Keywords.
Import OnPromptSubmit.

(** A word under the [i] flag matches at the head of a text when the
    folded text starts with the folded word, and the match consumes as
    many units as the word has. *)
Lemma rmatch_lit_i {A : Type} (word s : jsstring) (k : jsstring -> option A) :
  rmatch (lit_i word) s k =
    if startsWith (folded s) (folded word) then k (skipn (length word) s) else None.
Proof.
  revert s k. induction word as [|c word IH]; intros s k; [reflexivity|].
  destruct word as [|c' word].
  - destruct s as [|d s]; [reflexivity|].
    cbn [lit_i seq_of char_i rmatch folded map startsWith length skipn].
    rewrite N.eqb_sym. destruct (_ =? _)%N; [|reflexivity].
    now destruct (map canonicalize s).
  - change (lit_i (c :: c' :: word)) with (Seq (char_i c) (lit_i (c' :: word))).
    destruct s as [|d s]; [reflexivity|].
    cbn [rmatch char_i]. rewrite IH.
    change (folded (d :: s)) with (canonicalize d :: folded s).
    change (folded (c :: c' :: word)) with (canonicalize c :: folded (c' :: word)).
    cbn [startsWith]. rewrite (N.eqb_sym (canonicalize c)).
    destruct (_ =? _)%N; reflexivity.
Qed.

Lemma test_Alt (a b : regex) (s : jsstring) :
  test (Alt a b) s = test a s || test b s.
Proof.
  induction s as [|c s IH]; cbn [test]; unfold exec_here; cbn [rmatch];
    destruct (rmatch a _ Some); destruct (rmatch b _ Some); cbn [orb];
    try reflexivity; try exact IH.
  now rewrite orb_true_r.
Qed.

Lemma test_lit_i (word s : jsstring) : test (lit_i word) s = mentions s word.
Proof.
  unfold mentions.
  induction s as [|c s IH]; cbn [test]; unfold exec_here; rewrite rmatch_lit_i.
  - cbn [folded map includes]. now destruct (startsWith [] _).
  - change (folded (c :: s)) with (canonicalize c :: folded s).
    rewrite includes_cons, <- IH. now destruct (startsWith _ _).
Qed.

Lemma line_terminator_folded (c : N) :
  is_not_line_terminator (canonicalize c) = is_not_line_terminator c.
Proof.
  unfold canonicalize.
  destruct ((97 <=? c) && (c <=? 122))%N eqn:Hc; [|reflexivity].
  apply andb_true_iff in Hc as [Hlo Hhi].
  apply N.leb_le in Hlo, Hhi. unfold is_not_line_terminator.
  repeat match goal with
         | |- context [(?x =? ?y)%N] => destruct (N.eqb_spec x y); [lia|]
         end.
  reflexivity.
Qed.

(** After [.*], the word [code]: the star runs over the units of a line,
    and the word may start at any of them. *)
Lemma rmatch_any_then_code (s : jsstring) :
  match
    rmatch (Star any) s (fun s' => rmatch (lit_i (js "code")) s' Some)
  with
  | Some _ => true
  | None => false
  end = code_follows (folded s).
Proof.
  cbn [rmatch].
  match goal with |- context [?f (length s) s] => set (iter := f) end.
  assert (Hstop : forall t, iter 0 t = rmatch (lit_i (js "code")) t Some)
    by reflexivity.
  assert (Hstep : forall fuel t,
            iter (S fuel) t =
              match
                rmatch any t
                  (fun t' => if length t' <? length t then iter fuel t' else None)
              with
              | Some x => Some x
              | None => rmatch (lit_i (js "code")) t Some
              end) by reflexivity.
  clearbody iter.
  generalize (Nat.le_refl (length s)). generalize (length s) at 2 3 as fuel.
  intros fuel. revert s. induction fuel as [|fuel IH]; intros s Hlen.
  - destruct s; [|cbn [length] in Hlen; lia].
    rewrite Hstop, rmatch_lit_i. cbn [folded map code_follows].
    now destruct (startsWith [] _).
  - rewrite Hstep, rmatch_lit_i. destruct s as [|c s].
    + cbn [any rmatch folded map code_follows]. now destruct (startsWith [] _).
    + cbn [any rmatch length].
      change (folded (c :: s)) with (canonicalize c :: folded s).
      cbn [code_follows]. rewrite line_terminator_folded.
      assert (Hlt : (length s <? S (length s)) = true) by (apply Nat.ltb_lt; lia).
      rewrite Hlt.
      cbn [length] in Hlen. specialize (IH s ltac:(lia)).
      destruct (is_not_line_terminator c); cbn [andb].
      * rewrite <- IH. destruct (iter fuel s); [now rewrite orb_true_r|].
        now destruct (startsWith _ _).
      * rewrite orb_false_r. now destruct (startsWith _ _).
Qed.

Lemma test_analyze_code (s : jsstring) :
  test (Seq (lit_i (js "analyze")) (Seq (Star any) (lit_i (js "code")))) s
  = analyze_before_code (folded s).
Proof.
  assert (Hseven : length (js "analyze") = 7) by (vm_compute; reflexivity).
  assert (Hhere : forall t,
            match exec_here (Seq (lit_i (js "analyze"))
                               (Seq (Star any) (lit_i (js "code")))) t with
            | Some _ => true
            | None => false
            end
            = startsWith (folded t) (folded (js "analyze"))
              && code_follows (skipn 7 (folded t))).
  { intros t. unfold exec_here.
    change (rmatch (Seq (lit_i (js "analyze")) (Seq (Star any) (lit_i (js "code")))) t Some)
      with (rmatch (lit_i (js "analyze")) t
              (fun t' => rmatch (Star any) t'
                           (fun t'' => rmatch (lit_i (js "code")) t'' Some))).
    rewrite rmatch_lit_i, Hseven.
    destruct (startsWith _ _); [|reflexivity]. cbn [andb].
    unfold folded. rewrite skipn_map. apply rmatch_any_then_code. }
  induction s as [|c s IH]; cbn [test].
  - pose proof (Hhere []) as H0. cbn [folded map] in H0.
    cbn [folded map analyze_before_code]. rewrite <- H0.
    destruct (exec_here _ _); reflexivity.
  - pose proof (Hhere (c :: s)) as H1.
    change (folded (c :: s)) with (canonicalize c :: folded s) in *.
    cbn [analyze_before_code]. rewrite <- IH, <- H1.
    destruct (exec_here _ _); reflexivity.
Qed.

(** The classifier searches the prompt for words, letter case apart:
    [review], [check], or [analyze] with [code] after it on the same line,
    make it a code review; failing these, [refactor], [clean] or [improve]
    a refactoring; failing these, [test], [spec] or [coverage] testing; a
    prompt with none of the words is general.  The words are found inside
    longer ones too. *)
Theorem detectIntent_searches_words (text : jsstring) :
  detectIntent text = keyword_intent text.
Proof.
  unfold detectIntent, keyword_intent, patterns. cbn [detectLoop].
  unfold re_codeReview, re_refactoring, re_testing.
  rewrite !test_Alt, !test_lit_i, test_analyze_code.
  now rewrite !orb_assoc.
Qed.

(** Two prompts that differ only in the case of their ASCII letters are
    classified alike. *)
Theorem detectIntent_ignores_letter_case (p q : jsstring) :
  folded p = folded q -> detectIntent p = detectIntent q.
Proof.
  intros E.
  unfold detectIntent, patterns. cbn [detectLoop].
  unfold re_codeReview, re_refactoring, re_testing.
  rewrite !test_Alt, !test_lit_i, !test_analyze_code.
  unfold mentions. now rewrite E.
Qed.

End Keywords.

(** [Check THE Tests] and [check the tests] are the same prompt, letter
    case apart. *)
Lemma detectIntent_ignores_letter_case_witness :
  OnPromptSubmit.detectIntent (js "Check THE Tests")
  = OnPromptSubmit.detectIntent (js "check the tests").
Proof.
  apply detectIntent_ignores_letter_case. vm_compute. reflexivity.
Defined.

(** * Files that are gone, and test files *)

Section EdgeFiles.
Import OnFileChange.
Variable w : world.

(** A changed path that names nothing, such as a deleted file, is not
    read: it gets no entry from a language check and no size warning,
    whatever its extension.  It still gets the test-file notification if it
    is named as a test file, and the missing-test warning if it is named as
    a source file whose test file does not exist. *)
Theorem deleted_file_result (f : FileChange) (op : jsstring) :
  fs w (filePath f) = Absent ->
  exists log,
    call (advise w {| files := [f]; operation := op |}) =
      (Normal
         {| res_notifications := nonempty_or_undefined (test_file_notification (filePath f));
            res_warnings := nonempty_or_undefined (missing_test_warning w (filePath f));
            res_errors := None |},
       log).
Proof.
  intros Hfile. destruct (advise_one_file w f op) as [log ->]. exists log.
  now rewrite processFile_entries, Hfile.
Qed.

(** No file is reported both as a modified test file and as a source
    file without its test file. *)
Theorem test_file_is_not_missing_its_test (f : FileChange) (op : jsstring) :
  exists r log,
    call (advise w {| files := [f]; operation := op |}) = (Normal r, log)
    /\ (In (msg_test_file (Path.basename (filePath f))) (listing (res_notifications r)) ->
        forall testBase,
          ~ In (msg_no_test_file (Path.basename (filePath f)) testBase)
              (listing (res_warnings r))).
Proof.
  destruct (advise_one_file w f op) as [log ->]. eexists _, _. split; [reflexivity|].
  cbn [res_notifications res_warnings]. rewrite !listing_nonempty_or_undefined.
  destruct (processFile_added w f) as (N & W & HN & HW & -> & _).
  rewrite List.Forall_forall in HN, HW.
  assert (Hnote : forall l,
            In (msg_test_file (Path.basename (filePath f))) (N ++ l) -> In (msg_test_file (Path.basename (filePath f))) l).
  { intros l [Hin|Hin]%in_app_or; [|exact Hin].
    now destruct (check_notification_is_not_test_file _ _ (HN _ Hin)). }
  assert (Hwarn : forall testBase l,
            In (msg_no_test_file (Path.basename (filePath f)) testBase) (W ++ l) ->
            In (msg_no_test_file (Path.basename (filePath f)) testBase) l).
  { intros testBase l [Hin|Hin]%in_app_or; [|exact Hin].
    now destruct (check_warning_is_not_no_test_file _ testBase _ (HW _ Hin)). }
  assert (Hexcl : In (msg_test_file (Path.basename (filePath f)))
                    (test_file_notification (filePath f)) ->
                  missing_test_warning w (filePath f) = []).
  { unfold test_file_notification, missing_test_warning.
    destruct (isTestFile (filePath f)); [reflexivity|intros []]. }
  assert (Hsize : forall testBase content,
            ~ In (msg_no_test_file (Path.basename (filePath f)) testBase)
                (size_warning (filePath f) content)).
  { intros testBase content. unfold size_warning.
    destruct (600 <? _); [|intros []]. intros [E|[]].
    now destruct (size_is_not_no_test_file _ _ _ E). }
  destruct (fs w (filePath f)) as [|content|e]; cbn [notifications warnings].
  - intros Hin testBase Hw. now rewrite (Hexcl Hin) in Hw.
  - intros Hin%Hnote testBase [Hw|Hw]%Hwarn%in_app_or.
    + now rewrite (Hexcl Hin) in Hw.
    + now apply (Hsize _ _ Hw).
  - destruct (has_language_check _); [intros []|].
    intros Hin testBase Hw. now rewrite (Hexcl Hin) in Hw.
Qed.

End EdgeFiles.

(** [src/gone.js] was deleted: the hook still asks for its test file. *)
Lemma deleted_file_result_witness :
  exists log,
    call (OnFileChange.advise Samples.bare_world (Samples.change (js "src/gone.js"))) =
      (Normal
         {| OnFileChange.res_notifications := None;
            OnFileChange.res_warnings :=
              Some [js "⚠️  No test file found for gone.js. Consider creating gone.test.js"];
            OnFileChange.res_errors := None |},
       log).
Proof.
  destruct (deleted_file_result Samples.bare_world
              {| OnFileChange.filePath := js "src/gone.js";
                 OnFileChange.changeType := OnFileChange.modified |}
              (js "edit")) as [log Hlog]; [reflexivity|].
  exists log. unfold Samples.change. rewrite Hlog. vm_compute. reflexivity.
Defined.

(** * The suggestions of the prompt classifier *)

Section Suggestions.
Import OnPromptSubmit.
Context {H : Type}.
Variable w : world.

Lemma detectIntent_values (p : jsstring) :
  detectIntent p = js "codeReview" \/ detectIntent p = js "refactoring"
  \/ detectIntent p = js "testing" \/ detectIntent p = js "general".
Proof.
  unfold detectIntent, patterns. cbn [detectLoop].
  destruct (test re_codeReview p); [now left|].
  destruct (test re_refactoring p); [right; now left|].
  destruct (test re_testing p); [right; right; now left|now do 3 right].
Qed.

(** The intent written is one of the four names, and the suggestions come
    in pairs: two of them for each intent but [general], for which the
    [suggestions] key holds [undefined]. *)
Theorem classify_suggestions_in_pairs (ctx : PromptEvent H) :
  exists r intent,
    fst (call (classify w ctx)) = Normal r
    /\ res_metadata r !! js "detectedIntent" = Some (Str intent)
    /\ (intent = js "general" /\ res_metadata r !! js "suggestions" = Some Undefined
        \/ In intent [js "codeReview"; js "refactoring"; js "testing"]
           /\ exists tip1 tip2,
                res_metadata r !! js "suggestions" = Some (Arr [tip1; tip2])).
Proof.
  rewrite classify_call. eexists _, (detectIntent (prompt ctx)).
  split; [reflexivity|]. cbn [res_metadata]. split; [apply lookup_detectedIntent|].
  rewrite lookup_insert_eq.
  destruct (detectIntent_values (prompt ctx)) as [-> | [-> | [-> | ->]]].
  - right. split; [now left|]. now eexists _, _.
  - right. split; [right; now left|]. now eexists _, _.
  - right. split; [right; right; now left|]. now eexists _, _.
  - left. split; reflexivity.
Qed.

End Suggestions.

(** * Counting matches and finding text *)

Section TextSearch.
Import OnFileChange.
Variable w : world.

(** A pattern has a match in a text exactly when [test] finds one. *)
Lemma matches_from_none (r : regex) (s : jsstring) (fuel : nat) :
  length s < fuel ->
  (matches_from fuel r s = [] <-> test r s = false).
Proof.
  revert s. induction fuel as [|fuel IH]; intros s Hlen; [lia|].
  cbn [matches_from]. destruct s as [|c s]; cbn [test].
  - destruct (exec_here r []); split; intros E; try discriminate E; reflexivity.
  - destruct (exec_here r (c :: s)); [split; intros E; discriminate E|].
    apply IH. cbn [length] in Hlen. lia.
Qed.

Lemma count_matches_positive (s : jsstring) (r : regex) :
  (0 <? count_matches s r) = test r s.
Proof.
  unfold count_matches, match_g.
  pose proof (matches_from_none r s (S (length s)) ltac:(lia)) as Hnone.
  destruct (matches_from (S (length s)) r s) as [|m ms].
  - destruct (test r s); [|reflexivity]. discriminate (proj1 Hnone eq_refl).
  - destruct (test r s); [reflexivity|]. discriminate (proj2 Hnone eq_refl).
Qed.

(** A literal pattern matches at the head of a text that starts with
    it. *)
Lemma rmatch_lit {A : Type} (word s : jsstring) (k : jsstring -> option A) :
  rmatch (lit word) s k =
    if startsWith s word then k (skipn (length word) s) else None.
Proof.
  revert s k. induction word as [|c word IH]; intros s k; [reflexivity|].
  destruct word as [|c' word].
  - destruct s as [|d s]; [reflexivity|].
    cbn [lit seq_of char rmatch startsWith length skipn].
    destruct (_ =? _)%N; [|reflexivity]. now destruct s.
  - change (lit (c :: c' :: word)) with (Seq (char c) (lit (c' :: word))).
    destruct s as [|d s]; [reflexivity|].
    cbn [rmatch char]. rewrite IH. cbn [startsWith].
    destruct (_ =? _)%N; reflexivity.
Qed.

Lemma test_lit (word s : jsstring) : test (lit word) s = includes s word.
Proof.
  induction s as [|c s IH]; cbn [test]; unfold exec_here; rewrite rmatch_lit.
  - cbn [includes]. now destruct (startsWith [] _).
  - rewrite includes_cons, <- IH. now destruct (startsWith _ _).
Qed.

Lemma pylint_issues_is_not_print (base : jsstring) (k : nat) :
  msg_pylint_issues base <> msg_print k base.
Proof. told_apart_by_prefix 1. Qed.

(** A JavaScript or TypeScript file gets a console.log warning exactly
    when its content holds the text [console.log(] somewhere, be it in a
    comment, in a string or as the end of a longer name. *)
Theorem console_log_warning_iff_text_present (f : FileChange) (op content : jsstring) :
  array_includes [js ".js"; js ".jsx"; js ".ts"; js ".tsx"]
    (Path.extname (filePath f)) = true ->
  fs w (filePath f) = File content ->
  exists r log,
    call (advise w {| files := [f]; operation := op |}) = (Normal r, log)
    /\ ((exists k, In (msg_console_log k (Path.basename (filePath f)))
                     (listing (res_warnings r)))
        <-> includes content (js "console.log(") = true).
Proof.
  intros Hext Hfile.
  destruct (advise_one_file w f op) as [log ->]. eexists _, _. split; [reflexivity|].
  cbn [res_warnings]. rewrite listing_nonempty_or_undefined.
  rewrite (processFile_entries_js _ _ _ Hext Hfile), (checkJavaScript_entries _ _ _ Hfile).
  cbn [warnings]. unfold console_log_warning.
  rewrite count_matches_positive. unfold re_console_log. rewrite test_lit.
  split.
  - intros [k [[Hin|Hin]%in_app_or|[Hin|Hin]%in_app_or]%in_app_or].
    + destruct (includes content _); [reflexivity|destruct Hin].
    + unfold eslint_warning in Hin. destruct (run_command w _); [|destruct Hin].
      destruct (0 <? _); [|destruct Hin]. destruct Hin as [E|[]].
      now destruct (eslint_issues_is_not_console_log _ _ _ E).
    + unfold missing_test_warning in Hin. destruct (_ && _); [|destruct Hin].
      destruct Hin as [E|[]]. now destruct (no_test_file_is_not_console_log _ _ _ E).
    + unfold size_warning in Hin. destruct (600 <? _); [|destruct Hin].
      destruct Hin as [E|[]]. now destruct (size_is_not_console_log _ _ _ E).
  - intros ->. eexists. apply in_or_app; left. apply in_or_app; left. now left.
Qed.

(** A Python file gets a print warning exactly when its content holds the
    text [print(] somewhere. *)
Theorem print_warning_iff_text_present (f : FileChange) (op content : jsstring) :
  array_includes [js ".py"] (Path.extname (filePath f)) = true ->
  fs w (filePath f) = File content ->
  exists r log,
    call (advise w {| files := [f]; operation := op |}) = (Normal r, log)
    /\ ((exists k, In (msg_print k (Path.basename (filePath f)))
                     (listing (res_warnings r)))
        <-> includes content (js "print(") = true).
Proof.
  intros Hext Hfile.
  destruct (advise_one_file w f op) as [log ->]. eexists _, _. split; [reflexivity|].
  cbn [res_warnings]. rewrite listing_nonempty_or_undefined.
  rewrite (processFile_entries_py _ _ _ Hext Hfile), (checkPython_entries _ _ _ Hfile).
  cbn [warnings]. unfold print_warning.
  rewrite count_matches_positive. unfold re_print. rewrite test_lit.
  split.
  - intros [k [[Hin|Hin]%in_app_or|[Hin|Hin]%in_app_or]%in_app_or].
    + destruct (includes content _); [reflexivity|destruct Hin].
    + unfold pylint_warning in Hin. destruct (run_command w _); [|destruct Hin].
      destruct (0 <? _); [|destruct Hin]. destruct Hin as [E|[]].
      now destruct (pylint_issues_is_not_print _ _ E).
    + unfold missing_test_warning in Hin. destruct (_ && _); [|destruct Hin].
      destruct Hin as [E|[]].
      now destruct (check_warning_is_not_no_test_file _ _ _ (warn_print _ k) (eq_sym E)).
    + unfold size_warning in Hin. destruct (600 <? _); [|destruct Hin].
      destruct Hin as [E|[]].
      now destruct (check_warning_is_not_size _ _ _ (warn_print _ k) (eq_sym E)).
  - intros ->. eexists. apply in_or_app; left. apply in_or_app; left. now left.
Qed.

Lemma forEachFile_paths (l l' : list FileChange) :
  map filePath l = map filePath l' ->
  added (forEachFile w l) = added (forEachFile w l').
Proof.
  revert l'. induction l as [|[p ct] l IH]; intros [|[p' ct'] l'] E;
    try discriminate E; [reflexivity|].
  cbn [map filePath] in E. injection E as -> E.
  rewrite !added_forEachFile_cons, (IH _ E). reflexivity.
Qed.

(** Only the paths of the changed files matter: two events that list the
    same paths in the same order get the same result, whatever kind of
    change they report for each file and whatever operation they name. *)
Theorem advise_reads_paths_only (ev ev' : ChangeEvent) :
  map filePath (files ev) = map filePath (files ev') ->
  fst (call (advise w ev)) = fst (call (advise w ev')).
Proof.
  intros E. rewrite !advise_call. cbn [fst]. now rewrite (forEachFile_paths _ _ E).
Qed.

End TextSearch.

(** [src/view.jsx] holds [console.log(props)]. *)
Lemma console_log_warning_iff_text_present_witness :
  exists r log,
    call (OnFileChange.advise Samples.view_world (Samples.change (js "src/view.jsx")))
      = (Normal r, log)
    /\ ((exists k, In (OnFileChange.msg_console_log k (js "view.jsx"))
                     (OnFileChange.listing (OnFileChange.res_warnings r)))
        <-> includes Samples.view_source (js "console.log(") = true).
Proof.
  assert (Hbase : Path.basename (js "src/view.jsx") = js "view.jsx")
    by (vm_compute; reflexivity).
  pose proof (console_log_warning_iff_text_present Samples.view_world
                {| OnFileChange.filePath := js "src/view.jsx";
                   OnFileChange.changeType := OnFileChange.modified |}
                (js "edit") Samples.view_source) as Hw.
  cbn [OnFileChange.filePath] in Hw. rewrite Hbase in Hw.
  apply Hw; vm_compute; reflexivity.
Defined.

(** [tools/build.py] holds [print(1)]. *)
Lemma print_warning_iff_text_present_witness :
  exists r log,
    call (OnFileChange.advise Samples.script_world (Samples.change (js "tools/build.py")))
      = (Normal r, log)
    /\ ((exists k, In (OnFileChange.msg_print k (js "build.py"))
                     (OnFileChange.listing (OnFileChange.res_warnings r)))
        <-> includes Samples.script_source (js "print(") = true).
Proof.
  assert (Hbase : Path.basename (js "tools/build.py") = js "build.py")
    by (vm_compute; reflexivity).
  pose proof (print_warning_iff_text_present Samples.script_world
                {| OnFileChange.filePath := js "tools/build.py";
                   OnFileChange.changeType := OnFileChange.modified |}
                (js "edit") Samples.script_source) as Hw.
  cbn [OnFileChange.filePath] in Hw. rewrite Hbase in Hw.
  apply Hw; vm_compute; reflexivity.
Defined.

(** The result for [src/view.jsx] reported as deleted in a clean-up is the
    result for it reported as modified in an edit. *)
Lemma advise_reads_paths_only_witness :
  fst (call (OnFileChange.advise Samples.view_world (Samples.change (js "src/view.jsx"))))
  = fst (call (OnFileChange.advise Samples.view_world
                 {| OnFileChange.files :=
                      [ {| OnFileChange.filePath := js "src/view.jsx";
                           OnFileChange.changeType := OnFileChange.deleted |} ];
                    OnFileChange.operation := js "clean-up" |})).
Proof.
  apply advise_reads_paths_only. reflexivity.
Defined.
